(** * kabuka2: a stock-price dashboard (src/kabuka2.py)

    Shallow embedding of the data fetcher [get_data], of the two view
    shapers written inline in the main block ([data_melt] for the line chart,
    [ohlc_data] for the candlestick chart) and of the main block itself,
    together with the fragment of pandas, datetime, streamlit and altair
    semantics they rely on.

    Conventions.
    - Python objects that the program only moves around (labels, cells) are
      values of one dynamically typed universe [value].
    - Python exceptions are the constructors of [exn]; a computation that can
      raise returns [res].
    - The user interface and the market-data provider are effects: the
      messages written to the page and the requests sent to the provider are
      logged in the [world]. *)

From stdpp Require Import gmap strings list.

Local Open Scope string_scope.
Local Open Scope list_scope.
Local Open Scope Z_scope.

(** ** Python values *)

(** Labels and cells of a table.  [Num] stands for a finite price: prices are
    only copied by this program, never computed with, so a price is
    represented by an integer code.  [NaN] is pandas' missing value. *)
Inductive value : Type :=
| Str (s : string)
| Ts (t : Z)            (* a pandas Timestamp, microseconds *)
| Num (x : Z)
| NaN
| Tup (a b : value).    (* a Python 2-tuple *)

#[global] Instance value_eq_dec : EqDecision value.
Proof. solve_decision. Defined.

(** The exceptions that can occur; all of them derive from [Exception], so
    each [except Exception] clause of the source catches all of them. *)
Inductive exn : Type :=
| KeyError
| AttributeError
| TypeError
| ValueError
| OverflowError
| IndexError
| ProviderError (detail : string).

Inductive res (A : Type) : Type :=
| Ok (a : A)
| Raise (e : exn).
Arguments Ok {A} a.
Arguments Raise {A} e.

Definition res_bind {A B} (r : res A) (k : A -> res B) : res B :=
  match r with
  | Ok a => k a
  | Raise e => Raise e
  end.

(** ** datetime *)

Module Datetime.

(** A naive [datetime] is the number of microseconds since
    0001-01-01T00:00:00, which is [datetime.min]. *)
Definition datetime := Z.

Definition US_PER_DAY : Z := 86400000000.

(** [date.max.toordinal()] is 3652059; [datetime.max] is the last
    microsecond of 9999-12-31. *)
Definition MAX_DATETIME : Z := 3652059 * US_PER_DAY - 1.

Definition valid (d : datetime) : bool :=
  (0 <=? d) && (d <=? MAX_DATETIME).

(** [timedelta(days=n)]: the day count is limited to 999999999 in absolute
    value. *)
Definition timedelta (n : Z) : res Z :=
  if Z.abs n <=? 999999999 then Ok (n * US_PER_DAY) else Raise OverflowError.

(** [d - td] on a datetime and a timedelta. *)
Definition sub (d : datetime) (td : Z) : res datetime :=
  if valid (d - td) then Ok (d - td) else Raise OverflowError.

(** [d.date()] as a day number. *)
Definition date (d : datetime) : Z := d / US_PER_DAY.

End Datetime.

(** ** dict *)

Module Dict.

(** A Python [dict] with string keys and values: insertion-ordered, at most
    one entry per key. *)
Definition dict := list (string * string).

Fixpoint get (d : dict) (k : string) : option string :=
  match d with
  | [] => None
  | (k', v) :: d' => if decide (k' = k) then Some v else get d' k
  end.

(** [d[k] = v]: overwrite in place, or append. *)
Fixpoint set (d : dict) (k v : string) : dict :=
  match d with
  | [] => [(k, v)]
  | (k', v') :: d' =>
      if decide (k' = k) then (k', v) :: d' else (k', v') :: set d' k v
  end.

Definition keys (d : dict) : list string := List.map fst d.
Definition values (d : dict) : list string := List.map snd d.
Definition items (d : dict) : list (string * string) := d.

(** [{v: k for k, v in d.items()}] *)
Definition invert (d : dict) : dict :=
  fold_left (fun acc kv => set acc (snd kv) (fst kv)) (items d) [].

Definition swap (kv : string * string) : string * string := (snd kv, fst kv).

(** A dict display [{k1: v1, ...}] evaluates its items left to right. *)
Definition literal (l : list (string * string)) : dict :=
  fold_left (fun acc kv => set acc (fst kv) (snd kv)) l [].

End Dict.

(** ** pandas *)

Module Pandas.

Inductive index_kind : Type :=
| Index | DatetimeIndex | MultiIndex | RangeIndex.

#[global] Instance index_kind_eq_dec : EqDecision index_kind.
Proof. solve_decision. Defined.

(** One axis of a table.  The labels of a [MultiIndex] with two levels are
    the tuples [Tup a b]; it has one name per level, the other kinds have
    one name. *)
Record axis : Type := mk_axis {
  kind : index_kind;
  labels : list value;
  names : list (option string)
}.

Definition name (a : axis) : option string :=
  match names a with
  | [n] => n
  | _ => None
  end.

(** [a.name = n] *)
Definition set_name (a : axis) (n : string) : axis :=
  mk_axis (kind a) (labels a) [Some n].

Record DataFrame : Type := mk_df {
  index : axis;
  columns : axis;
  data : list (list value)        (* one list per row *)
}.

Record Series : Type := mk_series {
  s_index : axis;
  s_name : value;
  s_data : list value
}.

(** [df[key]] returns a column or a sub-table. *)
Inductive pdobj : Type :=
| OSeries (s : Series)
| OFrame (df : DataFrame).

(** [df.empty]: some axis has length zero. *)
Definition empty (df : DataFrame) : bool :=
  match labels (index df), labels (columns df) with
  | [], _ | _, [] => true
  | _, _ => false
  end.

(** Positions of the labels that satisfy [p]. *)
Fixpoint positions_from (p : value -> bool) (l : list value) (i : nat) : list nat :=
  match l with
  | [] => []
  | x :: l' => if p x then i :: positions_from p l' (S i) else positions_from p l' (S i)
  end.
Definition positions (p : value -> bool) (l : list value) : list nat :=
  positions_from p l 0.

Definition cell (row : list value) (j : nat) : value := nth j row NaN.

(** [df.iloc[:, js]] on the data. *)
Definition take_columns (js : list nat) (rows : list (list value)) : list (list value) :=
  List.map (fun row => List.map (cell row) js) rows.

Definition take (js : list nat) (l : list value) : list value :=
  List.map (fun j => nth j l NaN) js.

Definition column (j : nat) (rows : list (list value)) : list value :=
  List.map (fun row => cell row j) rows.

Definition level0 (v : value) : value :=
  match v with Tup a _ => a | _ => v end.
Definition level1 (v : value) : value :=
  match v with Tup _ b => b | _ => v end.

Definition eqb_value (a b : value) : bool := bool_decide (a = b).

Definition ncols (df : DataFrame) : nat := length (labels (columns df)).

(** [df.columns = a] checks the length of the new axis. *)
Definition set_columns (df : DataFrame) (a : axis) : res DataFrame :=
  if decide (length (labels a) = ncols df)
  then Ok (mk_df (index df) a (data df))
  else Raise ValueError.

(** [df[key]] for a string [key].
    - Over a [MultiIndex] the key selects on the first level and that level
      is dropped from the result; pandas returns the single remaining
      column as a [Series] when its label is the empty string.
    - Over one-level columns a single match gives a [Series], several
      matches give a table.
    - No match raises [KeyError]. *)
Definition getitem (df : DataFrame) (key : string) : res pdobj :=
  match kind (columns df) with
  | MultiIndex =>
      let js := positions (fun l => eqb_value (level0 l) (Str key)) (labels (columns df)) in
      match js with
      | [] => Raise KeyError
      | _ =>
          let cols := List.map level1 (take js (labels (columns df))) in
          match cols, js with
          | [Str EmptyString], [j] =>
              Ok (OSeries (mk_series (index df) (Str key) (column j (data df))))
          | _, _ =>
              Ok (OFrame (mk_df (index df)
                                (mk_axis Index cols (tl (names (columns df))))
                                (take_columns js (data df))))
          end
      end
  | _ =>
      let js := positions (fun l => eqb_value l (Str key)) (labels (columns df)) in
      match js with
      | [] => Raise KeyError
      | [j] => Ok (OSeries (mk_series (index df) (Str key) (column j (data df))))
      | _ =>
          Ok (OFrame (mk_df (index df)
                            (mk_axis (kind (columns df)) (take js (labels (columns df)))
                                     (names (columns df)))
                            (take_columns js (data df))))
      end
  end.

(** [obj.copy()] *)
Definition copy (o : pdobj) : pdobj := o.

(** [obj.columns]: a [Series] has no such attribute. *)
Definition get_columns (o : pdobj) : res axis :=
  match o with
  | OFrame df => Ok (columns df)
  | OSeries _ => Raise AttributeError
  end.

(** [a.map(d)] for a dict [d]: a label that is not a key becomes [NaN]. *)
Definition map_label (d : Dict.dict) (l : value) : value :=
  match l with
  | Str s => match Dict.get d s with Some n => Str n | None => NaN end
  | _ => NaN
  end.
Definition axis_map (a : axis) (d : Dict.dict) : axis :=
  mk_axis Index (List.map (map_label d) (labels a)) [name a].

(** [df.T] *)
Definition transpose (df : DataFrame) : DataFrame :=
  mk_df (columns df) (index df)
        (List.map (fun j => column j (data df)) (seq 0 (ncols df))).

(** [pd.concat({k: df}, axis=1)]: the key becomes the outer level of the
    columns. *)
Definition concat_keyed (k : string) (df : DataFrame) : DataFrame :=
  mk_df (index df)
        (mk_axis MultiIndex (List.map (Tup (Str k)) (labels (columns df)))
                 [None; name (columns df)])
        (data df).

(** [pd.MultiIndex.from_tuples(l)] for a list of pairs. *)
Definition from_tuples (l : list (value * value)) : res axis :=
  match l with
  | [] => Raise TypeError
  | _ => Ok (mk_axis MultiIndex (List.map (fun p => Tup (fst p) (snd p)) l) [None; None])
  end.

(** [df.loc[keys]] for a list of row labels: for each key in turn, the rows
    that carry it; a key that labels no row raises [KeyError]. *)
Fixpoint loc_positions (ls : list value) (keys : list string) : res (list nat) :=
  match keys with
  | [] => Ok []
  | k :: keys' =>
      match positions (fun l => eqb_value l (Str k)) ls with
      | [] => Raise KeyError
      | js => res_bind (loc_positions ls keys') (fun rest => Ok (js ++ rest))
      end
  end.

Definition take_rows (ps : list nat) (rows : list (list value)) : list (list value) :=
  List.map (fun i => nth i rows []) ps.

Definition loc_rows (df : DataFrame) (keys : list string) : res DataFrame :=
  res_bind (loc_positions (labels (index df)) keys) (fun ps =>
    Ok (mk_df (mk_axis (kind (index df)) (take ps (labels (index df))) (names (index df)))
              (columns df)
              (take_rows ps (data df)))).

(** [df[keys]] for a list of column labels. *)
Definition getitem_list (df : DataFrame) (keys : list string) : res DataFrame :=
  res_bind (loc_positions (labels (columns df)) keys) (fun js =>
    Ok (mk_df (index df)
              (mk_axis (kind (columns df)) (take js (labels (columns df))) (names (columns df)))
              (take_columns js (data df)))).

(** [df.loc[:, (slice(None), key)]]: the columns whose second level is
    [key].  Over one-level columns the tuple is not a valid indexer and
    pandas raises. *)
Definition loc_level1 (df : DataFrame) (key : string) : res DataFrame :=
  match kind (columns df) with
  | MultiIndex =>
      match positions (fun l => eqb_value (level1 l) (Str key)) (labels (columns df)) with
      | [] => Raise KeyError
      | js =>
          Ok (mk_df (index df)
                    (mk_axis MultiIndex (take js (labels (columns df))) (names (columns df)))
                    (take_columns js (data df)))
      end
  | _ => Raise TypeError
  end.

(** [a.droplevel(1)] *)
Definition droplevel1 (a : axis) : res axis :=
  match kind a with
  | MultiIndex => Ok (mk_axis Index (List.map level0 (labels a)) (firstn 1 (names a)))
  | _ => Raise ValueError
  end.

(** [df.reset_index()] for a one-level index over one-level columns: the
    index becomes the first column, labelled by the name of the index or,
    without a name, by "index" ("level_0" when "index" is taken); a label
    that is already a column raises [ValueError].  The new index is a
    [RangeIndex]. *)
Definition reset_label (df : DataFrame) : value :=
  match name (index df) with
  | Some n => Str n
  | None =>
      if bool_decide (Str "index" ∈ labels (columns df))
      then Str "level_0" else Str "index"
  end.

Fixpoint zip_cons (xs : list value) (rows : list (list value)) : list (list value) :=
  match xs, rows with
  | x :: xs', r :: rows' => (x :: r) :: zip_cons xs' rows'
  | x :: xs', [] => [x] :: zip_cons xs' []
  | [], _ => []
  end.

Definition range (n : nat) : list value :=
  List.map (fun i => Num (Z.of_nat i)) (seq 0 n).

Definition reset_index (df : DataFrame) : res DataFrame :=
  let c := reset_label df in
  if bool_decide (c ∈ labels (columns df)) then Raise ValueError
  else
    Ok (mk_df (mk_axis RangeIndex (range (length (labels (index df)))) [None])
              (mk_axis Index (c :: labels (columns df)) (names (columns df)))
              (zip_cons (labels (index df)) (data df))).

(** [pd.melt(frame, id_vars=[c])].  The value columns are all columns but
    [c]; the result has one row per cell of a value column, value column
    after value column, and the three columns [c], the name of the column
    axis ("variable" without a name) and "value".  pandas refuses a frame
    that has a column "value", and a [c] that is no column.  The columns
    are first collected in a dict keyed by label, so that of two columns
    with one label the one assigned last prevails. *)
Fixpoint assigned_last (k : value) (m : list (value * list value)) (acc : list value)
  : list value :=
  match m with
  | [] => acc
  | (k', v) :: m' => assigned_last k m' (if decide (k' = k) then v else acc)
  end.

Fixpoint zip3 (xs ys zs : list value) : list (list value) :=
  match xs, ys, zs with
  | x :: xs', y :: ys', z :: zs' => [x; y; z] :: zip3 xs' ys' zs'
  | _, _, _ => []
  end.

Definition var_name (frame : DataFrame) : value :=
  match name (columns frame) with
  | Some n => Str n
  | None => Str "variable"
  end.

Definition melt (frame : DataFrame) (c : value) : res DataFrame :=
  if bool_decide (Str "value" ∈ labels (columns frame)) then Raise ValueError
  else
    match positions (eqb_value c) (labels (columns frame)) with
    | [] => Raise KeyError
    | j :: _ =>
        let vs := positions (fun l => negb (eqb_value c l)) (labels (columns frame)) in
        let num_rows := length (labels (index frame)) in
        let id_data := List.concat (repeat (column j (data frame)) (length vs)) in
        let value_data := List.concat (List.map (fun v => column v (data frame)) vs) in
        let var_data :=
          List.concat (List.map (fun v => repeat (nth v (labels (columns frame)) NaN) num_rows) vs) in
        let mdata := [(c, id_data); (Str "value", value_data); (var_name frame, var_data)] in
        let col k := assigned_last k mdata [] in
        Ok (mk_df (mk_axis RangeIndex (range (length value_data)) [None])
                  (mk_axis Index [c; var_name frame; Str "value"] [None])
                  (zip3 (col c) (col (var_name frame)) (col (Str "value"))))
    end.

(** [df.rename(columns={a: "Date", "value": "Stock Prices(USD)"})]; in the
    dict display the entry for "value" is the later one. *)
Definition rename_label (a : value) (l : value) : value :=
  if decide (l = Str "value") then Str "Stock Prices(USD)"
  else if decide (l = a) then Str "Date"
  else l.

Definition rename (df : DataFrame) (a : value) : DataFrame :=
  mk_df (index df)
        (mk_axis (kind (columns df)) (List.map (rename_label a) (labels (columns df)))
                 (names (columns df)))
        (data df).

End Pandas.

(** ** The page, the provider and the cache *)

Import Datetime Pandas.

(** The texts that the program shows with [st.error], by the line of the
    source that writes them. *)
Inductive message : Type :=
| EmptyFetch                      (* line 45: no price data for the period *)
| FetchException (e : exn)        (* line 69: error while fetching the data: e *)
| Traceback                       (* lines 70 and 193: traceback.format_exc() *)
| NoSelection                     (* line 109: choose at least one company *)
| EmptyOHLC (company : string)    (* line 157: no OHLC data for the company *)
| PipelineFailed                  (* line 189: fetching or processing failed *)
| Unexpected (e : exn).           (* line 192: unexpected error: e *)

(** What a run writes to the page: errors, the heading of line 96, the table
    of line 113 (shown sorted by row label), the heading of line 148 and the
    two charts, each with the table it is drawn from. *)
Inductive event : Type :=
| st_error (m : message)
| st_write_days (days : Z)
| st_write_closing (data_lines : DataFrame)
| st_write_candle (company ticker : string)
| line_chart (data_melt : DataFrame)
| candle_chart (ohlc_data : DataFrame).

(** What [get_data] returns: [None], or a pair. *)
Inductive pyret : Type :=
| RNone
| RTuple (a b : option DataFrame).

(** A request to the provider: [yf.download(tkr_list, start=, end=)]. *)
Record request : Type := mk_request {
  req_tickers : list string;
  req_start : datetime;
  req_end : datetime
}.

(** An entry of the memoization cache of [st.cache_data]: the returned value
    and the page elements the call produced, which are shown again on a
    hit. *)
Record cache_entry : Type := mk_entry {
  replayed : list event;
  returned : pyret
}.

Record world : Type := mk_world {
  clock : datetime;                         (* what datetime.now() reads *)
  provider : request -> res DataFrame;      (* the market-data provider *)
  page : list event;                        (* elements written so far *)
  requests : list request;                  (* requests sent so far *)
  cache : gmap (Z * Dict.dict) cache_entry  (* st.cache_data, keyed by the arguments *)
}.

(** Computations that read and write the world and may raise. *)
Definition M (A : Type) : Type := world -> res A * world.

Definition ret {A} (a : A) : M A := fun w => (Ok a, w).

Definition bind {A B} (m : M A) (k : A -> M B) : M B :=
  fun w =>
    match m w with
    | (Ok a, w') => k a w'
    | (Raise e, w') => (Raise e, w')
    end.

Definition lift {A} (r : res A) : M A := fun w => (r, w).

(** [try: m  except Exception as e: h e] *)
Definition try_except {A} (m : M A) (h : exn -> M A) : M A :=
  fun w =>
    match m w with
    | (Ok a, w') => (Ok a, w')
    | (Raise e, w') => h e w'
    end.

Notation "x <- m ;; k" := (bind m (fun x => k))
  (at level 100, m at next level, right associativity).
Notation "m ;;; k" := (bind m (fun _ => k))
  (at level 100, right associativity).

(** The world after the elements [es] were written to the page, and after
    the request [r] was sent. *)
Definition written (es : list event) (w : world) : world :=
  mk_world (clock w) (provider w) (page w ++ es) (requests w) (cache w).

Definition sent (r : request) (w : world) : world :=
  mk_world (clock w) (provider w) (page w) (requests w ++ [r]) (cache w).

Definition emit (e : event) : M unit :=
  fun w => (Ok tt, written [e] w).

Definition datetime_now : M datetime := fun w => (Ok (clock w), w).

Definition yf_download (tkr_list : list string) (start_date end_date : datetime)
  : M DataFrame :=
  fun w =>
    let r := mk_request tkr_list start_date end_date in
    (provider w r, sent r w).

(** ** get_data *)

Definition is_kind (k : index_kind) (a : axis) : bool := bool_decide (kind a = k).

(** Lines 48 to 52: the adjustment for a single ticker. *)
Definition rewrap (tkr_list : list string) (hist : DataFrame) : res DataFrame :=
  if (length tkr_list =? 1)%nat && negb (is_kind DatetimeIndex (index hist)) then
    if negb (is_kind MultiIndex (columns hist)) then
      let t0 := hd "" tkr_list in
      let hist := concat_keyed t0 hist in
      res_bind
        (from_tuples (combine (labels (columns hist)) (repeat (Str t0) (ncols hist))))
        (set_columns hist)
    else Ok hist
  else Ok hist.

(** Line 62: [df_close.columns = df_close.columns.map(ticker_to_name)]. *)
Definition map_columns (df_close : pdobj) (ticker_to_name : Dict.dict) : res DataFrame :=
  res_bind (get_columns df_close) (fun cols =>
    match df_close with
    | OFrame df => set_columns df (axis_map cols ticker_to_name)
    | OSeries _ => Raise AttributeError
    end).

(** Line 64: [df_close.index.name = n]. *)
Definition set_index_name (df : DataFrame) (n : string) : DataFrame :=
  mk_df (set_name (index df) n) (columns df) (data df).

(** Lines 56 to 64: the Close matrix, instruments by dates. *)
Definition df_close (hist : DataFrame) (tickers : Dict.dict) : res DataFrame :=
  let ticker_to_name := Dict.invert tickers in
  res_bind (getitem hist "Close") (fun df_close =>
  let df_close := copy df_close in
  res_bind (map_columns df_close ticker_to_name) (fun df_close =>
  let df_close := transpose df_close in
  Ok (set_index_name df_close "Name"))).

(** Lines 47 to 64: what [get_data] makes of a non-empty answer. *)
Definition shaped (tks : Dict.dict) (hist : DataFrame) : res (DataFrame * DataFrame) :=
  res_bind (rewrap (Dict.values tks) hist) (fun h =>
  res_bind (df_close h tks) (fun d => Ok (h, d))).

(** The body of [get_data], without the memoization. *)
Definition get_data_body (days : Z) (tickers : Dict.dict) : M pyret :=
  try_except
    (end_date <- datetime_now ;;
     td <- lift (timedelta (days - 1)) ;;
     start_date <- lift (sub end_date td) ;;
     let tkr_list := Dict.values tickers in
     hist <- yf_download tkr_list start_date end_date ;;
     if empty hist then
       emit (st_error EmptyFetch) ;;;
       ret RNone
     else
       hist <- lift (rewrap tkr_list hist) ;;
       df_close <- lift (df_close hist tickers) ;;
       ret (RTuple (Some hist) (Some df_close)))
    (fun e =>
       emit (st_error (FetchException e)) ;;;
       emit (st_error Traceback) ;;;
       ret (RTuple None None)).

(** [@st.cache_data]: the call is looked up under its arguments; on a miss
    the body runs, and its result is stored together with the elements it
    wrote; on a hit the stored elements are written again and the stored
    value is returned.  A call that raises stores nothing. *)
Definition get_data (days : Z) (tickers : Dict.dict) : M pyret :=
  fun w =>
    match cache w !! (days, tickers) with
    | Some e => (Ok (returned e), written (replayed e) w)
    | None =>
        match get_data_body days tickers
                (mk_world (clock w) (provider w) [] (requests w) (cache w)) with
        | (Ok r, w') =>
            (Ok r,
             mk_world (clock w') (provider w') (page w ++ page w') (requests w')
                      (<[(days, tickers) := mk_entry (page w') r]> (cache w')))
        | (Raise e, w') =>
            (Raise e,
             mk_world (clock w') (provider w') (page w ++ page w') (requests w') (cache w'))
        end
    end.

(** What [get_data] writes and returns once the provider has answered its
    request: the four ways out of the body. *)
Definition outcome (tickers : Dict.dict) (answer : res DataFrame) : list event * pyret :=
  match answer with
  | Raise e => ([st_error (FetchException e); st_error Traceback], RTuple None None)
  | Ok hist =>
      if empty hist then ([st_error EmptyFetch], RNone)
      else
        match shaped tickers hist with
        | Ok (h, d) => ([], RTuple (Some h) (Some d))
        | Raise e => ([st_error (FetchException e); st_error Traceback], RTuple None None)
        end
  end.

(** The world after the entry [e] was stored under the arguments [k]. *)
Definition memoized (k : Z * Dict.dict) (e : cache_entry) (w : world) : world :=
  mk_world (clock w) (provider w) (page w) (requests w) (<[k := e]> (cache w)).

(** ** The main block *)

(** Lines 75 to 82. *)
Definition tickers : Dict.dict :=
  Dict.literal
    [("apple", "AAPL"); ("meta", "META"); ("google", "GOOGL");
     ("microsoft", "MSFT"); ("netflix", "NFLX"); ("amazon", "AMZN")].

Definition company_names : list string := Dict.keys tickers.

(** The two options of [st.radio]. *)
Inductive chart_type : Type := MultiLine | Candlestick.

(** The state of the widgets in one run of the script.  The price range of
    the second slider only scales the axis of the charts and is left to the
    renderer. *)
Record widgets : Type := mk_widgets {
  days : Z;                       (* st.sidebar.slider, 1 to 100 *)
  chart : chart_type;             (* st.radio *)
  companies : list string;        (* st.sidebar.multiselect *)
  selected_company : string       (* st.sidebar.selectbox *)
}.

(** [hist_data, df_close_processed = r] *)
Definition unpack2 (r : pyret) : res (option DataFrame * option DataFrame) :=
  match r with
  | RNone => Raise TypeError
  | RTuple a b => Ok (a, b)
  end.

(** [d[k]] *)
Definition dict_getitem (d : Dict.dict) (k : string) : res string :=
  match Dict.get d k with
  | Some v => Ok v
  | None => Raise KeyError
  end.

(** [a[0]] *)
Definition first_label (a : axis) : res value :=
  match labels a with
  | l :: _ => Ok l
  | [] => Raise IndexError
  end.

(** Lines 116 to 121: the long form handed to the line chart. *)
Definition data_melt (data_lines : DataFrame) : res DataFrame :=
  res_bind (reset_index (transpose data_lines)) (fun data_melt =>
  res_bind (first_label (columns data_melt)) (fun date_col_name =>
  res_bind (melt data_melt date_col_name) (fun data_melt =>
  Ok (rename data_melt date_col_name)))).

(** Lines 152 to 154: the table of one instrument handed to the candlestick
    chart. *)
Definition ohlc_data (hist_data : DataFrame) (selected_ticker : string) : res DataFrame :=
  res_bind (loc_level1 hist_data selected_ticker) (fun ohlc_data =>
  res_bind (droplevel1 (columns ohlc_data)) (fun cols =>
  res_bind (set_columns ohlc_data cols) (fun ohlc_data =>
  res_bind (getitem_list ohlc_data ["Open"; "High"; "Low"; "Close"]) (fun ohlc_data =>
  reset_index ohlc_data)))).

(** [st.altair_chart(chart)], lines 135 and 186.  To render the chart, Altair
    looks up every encoding field that is given without a type in the columns
    of the data, to infer the type, and raises [ValueError] for a field that
    is no column; nothing is drawn then.  [fields] are these fields of the
    chart, [ev] is the element drawn. *)
Definition is_column (data : DataFrame) (field : string) : bool :=
  bool_decide (Str field ∈ labels (columns data)).

Definition st_altair_chart (fields : list string) (data : DataFrame) (ev : event) : M unit :=
  if forallb (is_column data) fields then emit ev else lift (Raise ValueError).

(** The fields without a type: the tooltip of line 131, and the tooltips of
    lines 164 to 168. *)
Definition line_fields : list string := ["Date"; "Name"; "Stock Prices(USD)"].

Definition candle_fields : list string := ["Date"; "Open"; "High"; "Low"; "Close"].

(** Lines 108 to 135. *)
Definition multi_line (df_close_processed : DataFrame) (companies : list string) : M unit :=
  match companies with
  | [] => emit (st_error NoSelection)
  | _ =>
      data_lines <- lift (loc_rows df_close_processed companies) ;;
      emit (st_write_closing data_lines) ;;;
      data_melt <- lift (data_melt data_lines) ;;
      st_altair_chart line_fields data_melt (line_chart data_melt)
  end.

(** Lines 147 to 186. *)
Definition candlestick (hist_data : DataFrame) (selected_company : string) : M unit :=
  selected_ticker <- lift (dict_getitem tickers selected_company) ;;
  emit (st_write_candle selected_company selected_ticker) ;;;
  ohlc_data <- lift (ohlc_data hist_data selected_ticker) ;;
  if empty ohlc_data then emit (st_error (EmptyOHLC selected_company))
  else st_altair_chart candle_fields ohlc_data (candle_chart ohlc_data).

(** Lines 74 to 193. *)
Definition main (ui : widgets) : M unit :=
  try_except
    (r <- get_data (days ui) tickers ;;
     p <- lift (unpack2 r) ;;
     match p with
     | (Some hist_data, Some df_close_processed) =>
         emit (st_write_days (days ui)) ;;;
         match chart ui with
         | MultiLine => multi_line df_close_processed (companies ui)
         | Candlestick => candlestick hist_data (selected_company ui)
         end
     | _ => emit (st_error PipelineFailed)
     end)
    (fun e =>
       emit (st_error (Unexpected e)) ;;;
       emit (st_error Traceback)).

(** ** Tables as the specification sees them *)

(** The rows of a table all have one cell per column, and there is one row
    per index label. *)
Definition rectangular (df : DataFrame) : Prop :=
  length (data df) = length (labels (index df)) /\
  Forall (fun row => length row = ncols df) (data df).

(** The cell of [df] in the row labelled [r] and the column labelled [c]
    (the first such row and column). *)
Definition position (l : value) (ls : list value) : option nat :=
  match positions (eqb_value l) ls with
  | i :: _ => Some i
  | [] => None
  end.

Definition at_labels (df : DataFrame) (r c : value) : option value :=
  match position r (labels (index df)), position c (labels (columns df)) with
  | Some i, Some j => Some (cell (nth i (data df) []) j)
  | _, _ => None
  end.

(** Strictly increasing timestamps: sorted and without duplicates. *)
Fixpoint increasing_from (t : Z) (l : list value) : Prop :=
  match l with
  | [] => True
  | Ts t' :: l' => t < t' /\ increasing_from t' l'
  | _ :: _ => False
  end.

Definition increasing (l : list value) : Prop :=
  match l with
  | [] => True
  | Ts t :: l' => increasing_from t l'
  | _ :: _ => False
  end.

Definition FIELDS : list string := ["Open"; "High"; "Low"; "Close"].

(** An OHLC table for the symbols [syms], as the provider answers a request
    (section 3 of the specification): the columns are grouped by (field,
    symbol), pairwise distinct, each a pair of a field name and a requested
    symbol, and for every requested symbol the four fields are present; the
    date index is a [DatetimeIndex], sorted ascending and deduplicated.  A
    symbol is not the empty string, and the index is not named like one of
    the four fields. *)
Record ohlc_table (syms : list string) (df : DataFrame) : Prop := mk_ohlc_table {
  ohlc_symbols : "" ∉ syms;
  ohlc_columns_kind : kind (columns df) = MultiIndex;
  ohlc_columns_nodup : NoDup (labels (columns df));
  ohlc_columns_shape :
    Forall (fun l => exists f s, l = Tup (Str f) (Str s) /\ s ∈ syms) (labels (columns df));
  ohlc_columns_fields :
    forall f s, f ∈ FIELDS -> s ∈ syms -> Tup (Str f) (Str s) ∈ labels (columns df);
  ohlc_index_kind : kind (index df) = DatetimeIndex;
  ohlc_index_name : forall f, f ∈ FIELDS -> name (index df) <> Some f;
  ohlc_index_sorted : increasing (labels (index df));
  ohlc_rectangular : rectangular df
}.


(** The instant [n] days before [now]. *)
Definition days_before (n : Z) (now : datetime) : datetime := now - n * US_PER_DAY.

(** The request of [get_data] for [days] and [tickers] when the clock shows
    [now]. *)
Definition window_request (days : Z) (tickers : Dict.dict) (now : datetime) : request :=
  mk_request (Dict.values tickers) (days_before (days - 1) now) now.

(** A clock from which every window of up to 100 days is representable: it
    shows a valid datetime, 99 days or more after [datetime.min]. *)
Definition clock_ok (w : world) : Prop :=
  99 * US_PER_DAY <= clock w <= MAX_DATETIME.

(** The label under which [reset_index] files the dates of a Close matrix
    once it is transposed: the name of the date axis, "index" without one. *)
Definition dates_label (m : DataFrame) : value :=
  match name (columns m) with
  | Some d => Str d
  | None => Str "index"
  end.

(** A Close matrix (section 3 of the specification): one row per instrument,
    labelled by pairwise distinct display names under the axis name "Name"
    (line 64); one column per date, pairwise distinct and at least one.
    [reset_index] and [pd.melt] refuse a table in which the label of the
    dates or "value" labels an instrument, and a label of the dates that is
    "value"; and a label of the dates equal to "Name" would be taken for the
    column of the names. *)
Record close_matrix (m : DataFrame) : Prop := mk_close_matrix {
  cm_index_name : name (index m) = Some "Name";
  cm_index_nodup : NoDup (labels (index m));
  cm_no_value_row : Str "value" ∉ labels (index m);
  cm_dates_label_row : dates_label m ∉ labels (index m);
  cm_dates_label_value : dates_label m <> Str "value";
  cm_dates_label_name : dates_label m <> Str "Name";
  cm_dates_nodup : NoDup (labels (columns m));
  cm_dates_nonempty : labels (columns m) <> [];
  cm_rectangular : rectangular m
}.

(** The row of the matrix labelled [n]. *)
Definition row_of (m : DataFrame) (n : string) : list value :=
  match position (Str n) (labels (index m)) with
  | Some i => nth i (data m) []
  | None => []
  end.

(** The long form that section 4.2 of the specification expects of
    [toLongForm]: for every selected instrument and every date of the matrix
    one row (date, name, price), the price being the cell of the matrix. *)
Definition long_form (m : DataFrame) (selected : list string) : list (list value) :=
  flat_map
    (fun n =>
       List.map (fun j => [nth j (labels (columns m)) NaN; Str n; cell (row_of m n) j])
                (seq 0 (ncols m)))
    selected.

(** Re-pivoting a long form (section 8 of the specification; not a function
    of the program): the instruments and the dates in the order in which they
    first appear, and for each pair the price of the first row that carries
    it, [NaN] without such a row. *)
Definition add_new (seen : list value) (x : value) : list value :=
  if bool_decide (x ∈ seen) then seen else seen ++ [x].

Definition distinct (l : list value) : list value := fold_left add_new l [].

Fixpoint price_at (d n : value) (rows : list (list value)) : value :=
  match rows with
  | [] => NaN
  | row :: rows' =>
      if eqb_value (cell row 0) d && eqb_value (cell row 1) n then cell row 2
      else price_at d n rows'
  end.

Record matrix : Type := mk_matrix {
  m_rows : list value;
  m_dates : list value;
  m_cells : list (list value)
}.

Definition repivot (long : DataFrame) : matrix :=
  let ns := distinct (column 1 (data long)) in
  let ds := distinct (column 0 (data long)) in
  mk_matrix ns ds
    (List.map (fun n => List.map (fun d => price_at d n (data long)) ds) ns).

Definition matrix_of (df : DataFrame) : matrix :=
  mk_matrix (labels (index df)) (labels (columns df)) (data df).

(** The filtered submatrix of section 8 of the specification: the rows of
    the selected instruments, in the order of the selection, under their
    names, over all the dates of the matrix. *)
Definition submatrix (m : DataFrame) (selected : list string) : matrix :=
  mk_matrix (List.map Str selected) (labels (columns m)) (List.map (row_of m) selected).

(** ** Sessions *)

(** One run of [get_data] in a process: the clock and the provider are what
    they are at that moment, the cache is what earlier calls left. *)
Record call : Type := mk_call {
  call_clock : datetime;
  call_provider : request -> res DataFrame;
  call_days : Z;
  call_tickers : Dict.dict
}.

Definition call_key (c : call) : Z * Dict.dict := (call_days c, call_tickers c).

Definition at_call (c : call) (w : world) : world :=
  mk_world (call_clock c) (call_provider c) (page w) (requests w) (cache w).

Definition after_call (c : call) (w : world) : world :=
  snd (get_data (call_days c) (call_tickers c) (at_call c w)).

(** The number of provider requests that the calls with the arguments [k]
    issue in the session [cs] started in [w]. *)
Fixpoint downloads_for (k : Z * Dict.dict) (cs : list call) (w : world) : nat :=
  match cs with
  | [] => 0
  | c :: cs' =>
      let w' := after_call c w in
      ((if decide (call_key c = k)
        then length (requests w') - length (requests w) else 0)
       + downloads_for k cs' w')%nat
  end.

(** The world of a process that starts: nothing on the page, nothing
    requested, nothing memoized. *)
Definition boot (now : datetime) (prov : request -> res DataFrame) : world :=
  mk_world now prov [] [] ∅.

(** The positions of the Close columns of a grouped table, and the symbols
    they belong to. *)
Definition close_columns (hist : DataFrame) : list nat :=
  positions (fun l => eqb_value (level0 l) (Str "Close")) (labels (columns hist)).

Definition close_symbols (hist : DataFrame) : list value :=
  List.map level1 (take (close_columns hist) (labels (columns hist))).

(** The column of a grouped table that holds [field] of the symbol [sym],
    and the rows that section 4.2 of the specification expects of
    [toSingleInstrumentOHLC]: for every date of the table, in order, the date
    and the four prices of the symbol. *)
Definition field_position (hist : DataFrame) (field sym : string) : nat :=
  match position (Tup (Str field) (Str sym)) (labels (columns hist)) with
  | Some j => j
  | None => 0
  end.

Definition candles (hist : DataFrame) (sym : string) : list (list value) :=
  zip_cons (labels (index hist))
           (List.map (fun row => List.map (fun f => cell row (field_position hist f sym)) FIELDS)
                     (data hist)).

(** The label under which [reset_index] files the dates of a table whose
    columns are the four fields. *)
Definition date_label (hist : DataFrame) : value :=
  match name (index hist) with
  | Some n => Str n
  | None => Str "index"
  end.

(** The dates present for the symbol [sym], as section 9 of the
    specification reads them (a row without prices is an empty row): the rows
    of [candles] in which one of the four prices is not missing. *)
Definition is_missing (v : value) : bool :=
  match v with NaN => true | _ => false end.

Definition dates_present (hist : DataFrame) (sym : string) : list (list value) :=
  filter (fun row => negb (forallb is_missing (tl row))) (candles hist sym).

(** ** Sample data *)

Module Sample.

(** 2026-11-03, noon. *)
Definition now0 : datetime := 739922 * US_PER_DAY + 43200000000.

Definition midnight (day : Z) : value := Ts (day * US_PER_DAY).

Definition col (field symbol : string) : value := Tup (Str field) (Str symbol).

(** An answer of the provider for AAPL and META over three trading days,
    2026-10-30, 2026-11-02 and 2026-11-03; META has no prices on the second
    day. *)
Definition hist2 : DataFrame :=
  mk_df
    (mk_axis DatetimeIndex [midnight 739918; midnight 739921; midnight 739922] [Some "Date"])
    (mk_axis MultiIndex
       [col "Close" "AAPL"; col "Close" "META"; col "High" "AAPL"; col "High" "META";
        col "Low" "AAPL"; col "Low" "META"; col "Open" "AAPL"; col "Open" "META";
        col "Volume" "AAPL"; col "Volume" "META"]
       [Some "Price"; Some "Ticker"])
    [[Num 27010; Num 64820; Num 27200; Num 65000; Num 26900; Num 64000;
      Num 26950; Num 64100; Num 5000; Num 900];
     [Num 27100; NaN; Num 27300; NaN; Num 27000; NaN; Num 27050; NaN; Num 4000; NaN];
     [Num 26980; Num 65010; Num 27150; Num 65500; Num 26800; Num 64900;
      Num 27100; Num 64950; Num 4500; Num 800]].

Definition two : Dict.dict := Dict.literal [("apple", "AAPL"); ("meta", "META")].


(** An answer for the one symbol AAPL without the grouping level. *)
Definition flat1 : DataFrame :=
  mk_df
    (mk_axis DatetimeIndex [midnight 739922] [Some "Date"])
    (mk_axis Index [Str "Close"; Str "High"; Str "Low"; Str "Open"; Str "Volume"]
             [Some "Price"])
    [[Num 26980; Num 27150; Num 26800; Num 27100; Num 4500]].

Definition one : Dict.dict := Dict.literal [("apple", "AAPL")].

(** An answer without rows. *)
Definition no_rows : DataFrame :=
  mk_df (mk_axis DatetimeIndex [] [Some "Date"])
        (mk_axis MultiIndex (labels (columns hist2)) [Some "Price"; Some "Ticker"])
        [].

(** The Close matrix of [hist2]. *)
Definition close2 : DataFrame :=
  mk_df
    (mk_axis Index [Str "apple"; Str "meta"] [Some "Name"])
    (mk_axis DatetimeIndex [midnight 739918; midnight 739921; midnight 739922] [Some "Date"])
    [[Num 27010; Num 27100; Num 26980]; [Num 64820; NaN; Num 65010]].

Definition answers (df : DataFrame) : request -> res DataFrame := fun _ => Ok df.

(** Three runs of the script with the slider at 30, a minute apart, and one
    with the slider at 7 in between. *)
Definition at_30 (minutes : Z) : call :=
  mk_call (now0 + minutes * 60000000) (answers hist2) 30 tickers.

Definition at_7 (minutes : Z) : call :=
  mk_call (now0 + minutes * 60000000) (answers hist2) 7 tickers.

Definition session : list call := [at_30 0; at_30 1; at_7 2; at_30 3].

End Sample.

(** ** Later runs *)

(** The world some time after [w]: the clock and the provider have moved on,
    the page, the request log and the cache are what [w] left. *)
Definition later (now : datetime) (prov : request -> res DataFrame) (w : world) : world :=
  mk_world now prov (page w) (requests w) (cache w).

(** A provider that fails with the exception [e]. *)
Definition failing (e : exn) : request -> res DataFrame := fun _ => Raise e.

(** An answer of the provider for the six symbols of the mapping over two
    trading days, with the five fields of the provider grouped by field. *)
Module Sample6.

Definition grouped_columns : list value :=
  flat_map (fun f => List.map (fun s => Tup (Str f) (Str s)) (Dict.values tickers))
           ["Close"; "High"; "Low"; "Open"; "Volume"].

Definition prices (base : Z) : list value :=
  List.map (fun i => Num (base + Z.of_nat i)) (seq 0 30).

Definition hist6 : DataFrame :=
  mk_df
    (mk_axis DatetimeIndex [Sample.midnight 739921; Sample.midnight 739922] [Some "Date"])
    (mk_axis MultiIndex grouped_columns [Some "Price"; Some "Ticker"])
    [prices 10000; prices 20000].

Definition line_run : widgets := mk_widgets 30 MultiLine ["google"; "apple"] "apple".

Definition candle_run : widgets := mk_widgets 30 Candlestick [] "netflix".

End Sample6.

(** ** Sound caches *)




(** * Properties *)

(** ** The instrument mapping *)

(** C10.  The instrument mapping of the main block has six entries, its
    display names are pairwise distinct and so are its ticker symbols;
    inverting it keeps six entries; every instrument is found by name in the
    mapping and by symbol in the inverted mapping; and relabelling the
    columns of a Close projection, one column per symbol, yields the display
    names, none missing. *)
Theorem tickers_six_entries_invertible :
  length tickers = 6%nat /\
  NoDup (Dict.keys tickers) /\
  NoDup (Dict.values tickers) /\
  length (Dict.invert tickers) = 6%nat /\
  Forall (fun kv => Dict.get tickers (fst kv) = Some (snd kv) /\
                    Dict.get (Dict.invert tickers) (snd kv) = Some (fst kv))
         (Dict.items tickers) /\
  labels (axis_map (mk_axis Index (List.map Str (Dict.values tickers)) [Some "Ticker"])
                   (Dict.invert tickers))
  = List.map Str company_names.
Proof.
  split; [reflexivity|].
  split; [apply (bool_decide_unpack _); vm_compute; exact I|].
  split; [apply (bool_decide_unpack _); vm_compute; exact I|].
  split; [reflexivity|].
  split; [|reflexivity].
  repeat constructor.
Qed.

(** ** The effects of [get_data] *)

Lemma written_written es1 es2 w :
  written es2 (written es1 w) = written (es1 ++ es2) w.
Proof. unfold written; simpl. by rewrite app_assoc. Qed.

Lemma written_nil w : written [] w = w.
Proof. destruct w; unfold written; simpl. by rewrite app_nil_r. Qed.

(** The body of [get_data], run at a clock from which the window is
    representable: one request, and then what [outcome] says. *)
Lemma get_data_body_run days tks w :
  Z.abs (days - 1) <= 999999999 ->
  valid (days_before (days - 1) (clock w)) = true ->
  get_data_body days tks w =
  let r := window_request days tks (clock w) in
  let o := outcome tks (provider w r) in
  (Ok (snd o), written (fst o) (sent r w)).
Proof.
  intros Hd Hv.
  unfold get_data_body, try_except, bind, datetime_now, lift, yf_download, timedelta, sub,
    window_request, days_before, outcome in *.
  apply Z.leb_le in Hd. rewrite Hd. rewrite Hv. simpl.
  destruct (provider w _) as [hist|e]; simpl; [|by rewrite written_written].
  destruct (empty hist); simpl; [reflexivity|].
  unfold shaped, emit, ret.
  destruct (rewrap _ hist) as [h|e]; simpl; [|by rewrite written_written].
  destruct (df_close h tks) as [d|e]; simpl; [by rewrite written_nil|by rewrite written_written].
Qed.

(** When the window is not representable the body sends no request. *)
Lemma get_data_body_overflow days tks w :
  Z.abs (days - 1) <= 999999999 ->
  valid (days_before (days - 1) (clock w)) = false ->
  get_data_body days tks w =
  (Ok (RTuple None None),
   written [st_error (FetchException OverflowError); st_error Traceback] w).
Proof.
  intros Hd Hv.
  unfold get_data_body, try_except, bind, datetime_now, lift, timedelta, sub, days_before in *.
  apply Z.leb_le in Hd. rewrite Hd. rewrite Hv. simpl.
  by rewrite written_written.
Qed.

(** The body of [get_data] catches every exception. *)
Lemma get_data_body_returns days tks w :
  exists r, fst (get_data_body days tks w) = Ok r.
Proof.
  unfold get_data_body, try_except.
  match goal with |- context [match ?m w with _ => _ end] => destruct (m w) as [[r|e] w'] end;
    simpl; eauto.
Qed.

(** A call that finds nothing memoized runs the body and stores what it
    wrote and returned. *)
Lemma get_data_miss days tks w :
  cache w !! (days, tks) = None ->
  Z.abs (days - 1) <= 999999999 ->
  valid (days_before (days - 1) (clock w)) = true ->
  get_data days tks w =
  let r := window_request days tks (clock w) in
  let o := outcome tks (provider w r) in
  (Ok (snd o), memoized (days, tks) (mk_entry (fst o) (snd o)) (written (fst o) (sent r w))).
Proof.
  intros Hc Hd Hv. unfold get_data. rewrite Hc.
  rewrite get_data_body_run by done. simpl.
  reflexivity.
Qed.

(** A call that finds its arguments memoized sends nothing. *)
Lemma get_data_hit days tks w e :
  cache w !! (days, tks) = Some e ->
  get_data days tks w = (Ok (returned e), written (replayed e) w).
Proof. intros Hc. unfold get_data. by rewrite Hc. Qed.

(** ** The requested window *)

Lemma date_days_before n now : date (days_before n now) = date now - n.
Proof.
  unfold date, days_before.
  replace (now - n * US_PER_DAY) with (now + (- n) * US_PER_DAY) by lia.
  rewrite Z.div_add by (unfold US_PER_DAY; lia). lia.
Qed.

Lemma representable_day_count n now :
  0 <= n -> valid now = true -> valid (days_before n now) = true ->
  Z.abs n <= 999999999.
Proof.
  unfold valid, days_before, MAX_DATETIME, US_PER_DAY. intros Hn Hnow Hs.
  apply andb_true_iff in Hnow as [_ H1]. apply andb_true_iff in Hs as [H2 _].
  apply Z.leb_le in H1, H2. lia.
Qed.

(** C4, as the code has it.  For every day count of 1 or more for which the
    instant [days - 1] days before now is a representable datetime, a call of
    [get_data] that is not answered from the cache sends one request, for all
    symbols of the mapping, whose window ends now and spans exactly [days]
    calendar days counting today; with a day count of 1 the window starts
    now.  A call answered from the cache sends nothing. *)
Theorem get_data_window days tks w :
  1 <= days ->
  valid (clock w) = true ->
  valid (days_before (days - 1) (clock w)) = true ->
  let w' := snd (get_data days tks w) in
  match cache w !! (days, tks) with
  | Some _ => requests w' = requests w
  | None =>
      exists r, requests w' = requests w ++ [r] /\
                req_tickers r = Dict.values tks /\
                req_end r = clock w /\
                date (req_end r) - date (req_start r) + 1 = days /\
                (days = 1 -> req_start r = clock w)
  end.
Proof.
  intros Hd Hnow Hs.
  assert (Z.abs (days - 1) <= 999999999) as Ha
    by (apply (representable_day_count _ (clock w)); [lia|done..]).
  destruct (cache w !! (days, tks)) as [e|] eqn:Hc; simpl.
  - by rewrite (get_data_hit _ _ _ e).
  - rewrite get_data_miss by done. simpl.
    exists (window_request days tks (clock w)). simpl.
    repeat split; try done.
    + rewrite date_days_before. lia.
    + intros ->. unfold days_before. lia.
Qed.

Lemma get_data_window_witness :
  let w := boot Sample.now0 (Sample.answers Sample.hist2) in
  exists r, requests (snd (get_data 30 tickers w)) = [r] /\
            req_tickers r = ["AAPL"; "META"; "GOOGL"; "MSFT"; "NFLX"; "AMZN"] /\
            req_end r = Sample.now0 /\
            date (req_end r) - date (req_start r) + 1 = 30 /\
            (30 = 1 -> req_start r = Sample.now0).
Proof.
  exact (get_data_window 30 tickers (boot Sample.now0 (Sample.answers Sample.hist2))
           ltac:(lia) eq_refl eq_refl).
Defined.

(** C4, as the claim has it, fails for a large day count: a million days
    before 2026-11-03 lies before [datetime.min], the subtraction raises
    [OverflowError], and [get_data] sends no request at all. *)
Lemma get_data_window_overflow :
  let w := boot Sample.now0 (Sample.answers Sample.hist2) in
  1 <= 1000000 /\
  cache w !! (1000000, tickers) = None /\
  fst (get_data 1000000 tickers w) = Ok (RTuple None None) /\
  requests (snd (get_data 1000000 tickers w)) = [] /\
  page (snd (get_data 1000000 tickers w))
  = [st_error (FetchException OverflowError); st_error Traceback].
Proof. vm_compute. repeat split; congruence. Qed.

(** ** Memoization *)

(** Whatever the clock, the provider and the arguments: the body returns,
    sends at most one request, and leaves clock, provider and cache alone. *)
Lemma get_data_body_effects days tks w :
  exists r evs reqs,
    get_data_body days tks w
    = (Ok r, mk_world (clock w) (provider w) (page w ++ evs) (requests w ++ reqs) (cache w))
    /\ (length reqs <= 1)%nat.
Proof.
  destruct (Z_le_gt_dec (Z.abs (days - 1)) 999999999) as [Hd|Hd].
  - destruct (valid (days_before (days - 1) (clock w))) eqn:Hv.
    + rewrite get_data_body_run by done. simpl.
      eexists _, _, [_]. split; [reflexivity|simpl; lia].
    + rewrite get_data_body_overflow by done.
      exists (RTuple None None),
        [st_error (FetchException OverflowError); st_error Traceback], [].
      unfold written. rewrite app_nil_r. split; [reflexivity|simpl; lia].
  - unfold get_data_body, try_except, bind, datetime_now, lift, timedelta.
    apply Z.gt_lt, Z.leb_gt in Hd. rewrite Hd. simpl.
    exists (RTuple None None),
      [st_error (FetchException OverflowError); st_error Traceback], [].
    unfold emit, ret, written. simpl. rewrite app_nil_r, <- app_assoc.
    split; [reflexivity|simpl; lia].
Qed.

(** A call of [get_data] returns, sends at most one request, sends none when
    its arguments are memoized, and leaves its arguments memoized. *)
Lemma get_data_effects days tks w :
  exists r evs reqs c,
    get_data days tks w
    = (Ok r, mk_world (clock w) (provider w) (page w ++ evs) (requests w ++ reqs) c)
    /\ (length reqs <= 1)%nat
    /\ (is_Some (cache w !! (days, tks)) -> reqs = [])
    /\ is_Some (c !! (days, tks))
    /\ (forall k, is_Some (cache w !! k) -> is_Some (c !! k)).
Proof.
  unfold get_data. destruct (cache w !! (days, tks)) as [e|] eqn:Hc.
  - exists (returned e), (replayed e), [], (cache w). rewrite app_nil_r.
    repeat split; [simpl; lia|by rewrite Hc|done].
  - destruct (get_data_body_effects days tks
                (mk_world (clock w) (provider w) [] (requests w) (cache w)))
      as (r & evs & reqs & Hb & Hl).
    rewrite Hb. simpl.
    exists r, evs, reqs, (<[(days, tks) := mk_entry evs r]> (cache w)).
    repeat split; [done|by intros [? ?]|by rewrite lookup_insert_eq|].
    intros k Hk. destruct (decide ((days, tks) = k)) as [->|Hne].
    + by rewrite lookup_insert_eq.
    + by rewrite lookup_insert_ne.
Qed.

Lemma after_call_effects c w :
  exists reqs,
    requests (after_call c w) = requests w ++ reqs
    /\ (length reqs <= 1)%nat
    /\ (is_Some (cache w !! call_key c) -> reqs = [])
    /\ is_Some (cache (after_call c w) !! call_key c)
    /\ (forall k, is_Some (cache w !! k) -> is_Some (cache (after_call c w) !! k)).
Proof.
  unfold after_call, call_key.
  destruct (get_data_effects (call_days c) (call_tickers c) (at_call c w))
    as (r & evs & reqs & c' & Hg & H1 & H2 & H3 & H4).
  rewrite Hg. simpl. by exists reqs.
Qed.

(** Once the arguments [k] are memoized, no later call with them sends a
    request. *)
Lemma downloads_for_memoized k cs : forall w,
  is_Some (cache w !! k) -> downloads_for k cs w = 0%nat.
Proof.
  induction cs as [|c cs IH]; intros w Hk; simpl; [done|].
  destruct (after_call_effects c w) as (reqs & Hr & Hl & Hhit & Hin & Hmono).
  rewrite (IH _ (Hmono _ Hk)).
  destruct (decide (call_key c = k)) as [Heq|]; [|done].
  rewrite <- Heq in Hk. rewrite Hr, (Hhit Hk), app_nil_r. lia.
Qed.

(** C3.  In a session of calls of [get_data], with any arguments, at any
    clock and with any behaviour of the provider, started with any cache, the
    calls made with one pair of arguments (day count, instrument mapping)
    send at most one request to the provider between them: the download runs
    at most once per pair of arguments. *)
Theorem get_data_downloads_once k cs w :
  (downloads_for k cs w <= 1)%nat.
Proof.
  revert w. induction cs as [|c cs IH]; intros w; simpl; [lia|].
  destruct (after_call_effects c w) as (reqs & Hr & Hl & Hhit & Hin & Hmono).
  destruct (decide (call_key c = k)) as [<-|Hne].
  - rewrite (downloads_for_memoized _ cs _ Hin).
    rewrite Hr, length_app. lia.
  - specialize (IH (after_call c w)). lia.
Qed.

(** In the sample session the three calls with 30 days send one request, the
    first; the call with 7 days sends its own. *)
Example sample_session_downloads :
  downloads_for (30, tickers) Sample.session (boot Sample.now0 (Sample.answers Sample.hist2))
  = 1%nat /\
  downloads_for (7, tickers) Sample.session (boot Sample.now0 (Sample.answers Sample.hist2))
  = 1%nat /\
  List.map req_end
    (requests (fold_left (fun w c => after_call c w) Sample.session
                         (boot Sample.now0 (Sample.answers Sample.hist2))))
  = [Sample.now0; Sample.now0 + 120000000].
Proof. vm_compute. repeat split. Qed.

(** ** Selecting columns *)

Lemma positions_from_take p l : forall pre,
  take (positions_from p l (length pre)) (pre ++ l) = List.filter p l.
Proof.
  unfold take. induction l as [|x l IH]; intros pre; simpl; [done|].
  specialize (IH (pre ++ [x])). rewrite length_app, Nat.add_1_r, <- app_assoc in IH.
  simpl in IH. destruct (p x); simpl; [|done].
  rewrite IH. f_equal. rewrite app_nth2, Nat.sub_diag by lia. done.
Qed.

Lemma positions_take p l : take (positions p l) l = List.filter p l.
Proof. apply (positions_from_take p l []). Qed.

Lemma positions_from_bound p l : forall k,
  Forall (fun j => (k <= j < k + length l)%nat /\ p (nth (j - k) l NaN) = true)
         (positions_from p l k).
Proof.
  induction l as [|x l IH]; intros k; simpl; [constructor|].
  assert (Forall (fun j => (k <= j < k + S (length l))%nat /\
                           p (nth (j - k) (x :: l) NaN) = true)
                 (positions_from p l (S k))) as Ht.
  { eapply Forall_impl; [apply IH|]. simpl. intros j [Hj Hp]. split; [lia|].
    replace (j - k)%nat with (S (j - S k)) by lia. done. }
  destruct (p x) eqn:Hx; [|done].
  constructor; [|done]. split; [lia|]. by rewrite Nat.sub_diag.
Qed.

Lemma positions_bound p l :
  Forall (fun j => (j < length l)%nat /\ p (nth j l NaN) = true) (positions p l).
Proof.
  eapply Forall_impl; [apply (positions_from_bound p l 0)|].
  simpl. intros j [Hj Hp]. rewrite Nat.sub_0_r in Hp. split; [lia|done].
Qed.

Lemma positions_nil p l :
  positions p l = [] <-> Forall (fun x => p x = false) l.
Proof.
  split.
  - intros Hn. apply Forall_forall. intros x Hx. apply list_elem_of_In in Hx.
    destruct (p x) eqn:Hp; [|done].
    assert (In x (List.filter p l)) as Hf by (apply filter_In; done).
    rewrite <- positions_take, Hn in Hf. done.
  - intros Hall. destruct (positions p l) as [|j js] eqn:Hj; [done|].
    pose proof (positions_bound p l) as Hb. rewrite Hj in Hb.
    apply Forall_cons in Hb as [[Hlt Hp] _].
    rewrite Forall_forall in Hall.
    rewrite (Hall (nth j l NaN)) in Hp; [done|].
    apply list_elem_of_In. by apply nth_In.
Qed.

(** Over grouped columns, [df[key]] is the table of the columns of the group
    [key], labelled by their second level, unless one of these labels is the
    empty string. *)
Lemma getitem_grouped df key :
  kind (columns df) = MultiIndex ->
  let js := positions (fun l => eqb_value (level0 l) (Str key)) (labels (columns df)) in
  js <> [] ->
  Forall (fun c => c <> Str "") (List.map level1 (take js (labels (columns df)))) ->
  getitem df key
  = Ok (OFrame (mk_df (index df)
                      (mk_axis Index (List.map level1 (take js (labels (columns df))))
                               (tl (names (columns df))))
                      (take_columns js (data df)))).
Proof.
  intros Hk js Hjs Hne. unfold getitem. rewrite Hk. fold js.
  destruct js as [|j js']; [done|].
  destruct (List.map level1 (take (j :: js') (labels (columns df))))
    as [|c cols] eqn:Hc; [done|].
  apply Forall_cons in Hne as [Hc0 _].
  destruct c as [s| | | |]; try reflexivity.
  destruct s; [done|]. reflexivity.
Qed.

(** ** The Close matrix *)

(** Lines 56 to 64 on a grouped table with a Close group: the rows are the
    Close columns, relabelled through the inverted mapping, the columns are
    the dates. *)
Lemma df_close_grouped hist tks :
  kind (columns hist) = MultiIndex ->
  close_columns hist <> [] ->
  Forall (fun c => c <> Str "") (close_symbols hist) ->
  df_close hist tks
  = Ok (mk_df (mk_axis Index (List.map (map_label (Dict.invert tks)) (close_symbols hist))
                       [Some "Name"])
              (index hist)
              (List.map (fun j => column j (take_columns (close_columns hist) (data hist)))
                        (seq 0 (length (close_columns hist))))).
Proof.
  intros Hk Hjs Hne. unfold df_close.
  rewrite getitem_grouped by done. fold (close_columns hist). fold (close_symbols hist).
  unfold copy, map_columns, get_columns, set_columns, ncols, axis_map. simpl.
  rewrite decide_True by (by rewrite length_map).
  simpl. unfold transpose, set_index_name, set_name, ncols. simpl.
  unfold close_symbols, take. by rewrite !length_map.
Qed.

Lemma level0_close_eqb f s :
  eqb_value (level0 (Tup (Str f) (Str s))) (Str "Close") = bool_decide (f = "Close").
Proof.
  unfold eqb_value. simpl. apply bool_decide_ext. split; congruence.
Qed.

(** An OHLC table with a column has a Close column, and no Close column
    belongs to the empty symbol. *)
Lemma ohlc_table_close syms hist :
  ohlc_table syms hist -> labels (columns hist) <> [] ->
  close_columns hist <> [] /\
  Forall (fun c => exists s, c = Str s /\ s ∈ syms /\ s <> "") (close_symbols hist).
Proof.
  intros H Hcols. split.
  - destruct (labels (columns hist)) as [|l ls] eqn:Hl; [done|].
    pose proof (ohlc_columns_shape _ _ H) as Hs. rewrite Hl in Hs.
    apply Forall_cons in Hs as [(f & s & -> & Hin) _].
    assert (Tup (Str "Close") (Str s) ∈ labels (columns hist)) as Hc.
    { apply (ohlc_columns_fields _ _ H); [|done]. unfold FIELDS. set_solver. }
    intros Hn. apply positions_nil in Hn. rewrite Forall_forall in Hn.
    specialize (Hn _ Hc). by rewrite level0_close_eqb in Hn.
  - unfold close_symbols, close_columns. rewrite positions_take.
    apply Forall_forall. intros c Hc. apply list_elem_of_In, in_map_iff in Hc.
    destruct Hc as (l & <- & Hl). apply filter_In in Hl as [Hl _].
    pose proof (ohlc_columns_shape _ _ H) as Hs. rewrite Forall_forall in Hs.
    destruct (Hs l) as (f & s & -> & Hin); [by apply list_elem_of_In|].
    exists s. repeat split; [done|]. intros ->. by apply (ohlc_symbols _ _ H).
Qed.

Lemma rewrap_grouped tkr_list hist :
  kind (columns hist) = MultiIndex -> rewrap tkr_list hist = Ok hist.
Proof.
  intros Hk. unfold rewrap, is_kind. rewrite Hk.
  rewrite (bool_decide_eq_true_2 (MultiIndex = MultiIndex)) by done. simpl.
  by destruct (_ && _).
Qed.

(** A non-empty OHLC table passes through [get_data] unchanged, together
    with its Close matrix. *)
Lemma shaped_ohlc_table syms tks hist :
  ohlc_table syms hist -> empty hist = false ->
  shaped tks hist
  = Ok (hist,
        mk_df (mk_axis Index (List.map (map_label (Dict.invert tks)) (close_symbols hist))
                       [Some "Name"])
              (index hist)
              (List.map (fun j => column j (take_columns (close_columns hist) (data hist)))
                        (seq 0 (length (close_columns hist))))).
Proof.
  intros H He. unfold shaped.
  rewrite rewrap_grouped by apply (ohlc_columns_kind _ _ H). simpl.
  assert (labels (columns hist) <> []) as Hcols.
  { unfold empty in He. destruct (labels (index hist)), (labels (columns hist)); done. }
  destruct (ohlc_table_close _ _ H Hcols) as [Hjs Hsym].
  rewrite df_close_grouped; [done|apply (ohlc_columns_kind _ _ H)|done|].
  eapply Forall_impl; [apply Hsym|]. simpl. intros c (s & -> & _ & Hs). congruence.
Qed.

(** ** What [get_data] returns *)




(** The main block catches every exception. *)
Lemma main_returns ui w : fst (main ui w) = Ok tt.
Proof.
  unfold main, try_except.
  match goal with |- context [match ?m w with _ => _ end] => destruct (m w) as [[[]|e] w'] end;
    reflexivity.
Qed.

Lemma window_representable days w :
  1 <= days <= 100 -> clock_ok w ->
  Z.abs (days - 1) <= 999999999 /\ valid (days_before (days - 1) (clock w)) = true.
Proof.
  unfold clock_ok, valid, days_before, MAX_DATETIME, US_PER_DAY. intros Hd Hc.
  split; [lia|]. apply andb_true_iff. split; apply Z.leb_le; lia.
Qed.





Lemma sample_hist2_ohlc_table : ohlc_table ["AAPL"; "META"] Sample.hist2.
Proof.
  constructor.
  - apply (bool_decide_unpack _). vm_compute. exact I.
  - reflexivity.
  - apply (bool_decide_unpack _). vm_compute. exact I.
  - repeat constructor; eexists _, _; (split; [reflexivity|]);
      apply (bool_decide_unpack _); vm_compute; exact I.
  - intros f s Hf Hs. unfold FIELDS in Hf.
    repeat (apply elem_of_cons in Hf as [->|Hf]);
      repeat (apply elem_of_cons in Hs as [->|Hs]);
      try (by apply elem_of_nil in Hf); try (by apply elem_of_nil in Hs);
      apply (bool_decide_unpack _); vm_compute; exact I.
  - reflexivity.
  - intros f Hf. unfold FIELDS in Hf.
    repeat (apply elem_of_cons in Hf as [->|Hf]); try (by apply elem_of_nil in Hf);
      discriminate.
  - vm_compute. repeat split.
  - split; [reflexivity|]. repeat constructor.
Qed.




(** An empty answer, seen through the main block of a starting process. *)
Example main_empty_answer :
  let w := boot Sample.now0 (Sample.answers Sample.no_rows) in
  let ui := mk_widgets 30 MultiLine ["apple"] "apple" in
  fst (main ui w) = Ok tt /\
  page (snd (main ui w))
  = [st_error EmptyFetch; st_error (Unexpected TypeError); st_error Traceback].
Proof. vm_compute. split; reflexivity. Qed.

(** ** Rendering a chart *)

(** A chart is drawn, or [ValueError] is raised and nothing is written. *)
Lemma st_altair_chart_cases fields data ev w :
  st_altair_chart fields data ev w = (Ok tt, written [ev] w) \/
  st_altair_chart fields data ev w = (Raise ValueError, w).
Proof.
  unfold st_altair_chart, emit, lift.
  destruct (forallb (is_column data) fields); [by left | by right].
Qed.

(** It is drawn when every field is a column of the data. *)
Lemma st_altair_chart_drawn fields data ev w :
  Forall (fun f => Str f ∈ labels (columns data)) fields ->
  st_altair_chart fields data ev w = (Ok tt, written [ev] w).
Proof.
  intros Hall. unfold st_altair_chart, emit.
  replace (forallb (is_column data) fields) with true; [done|].
  symmetry. apply forallb_forall. intros f Hf.
  apply bool_decide_eq_true. rewrite Forall_forall in Hall.
  apply Hall. by apply list_elem_of_In.
Qed.

(** It is refused when some field is no column. *)
Lemma st_altair_chart_refused fields data ev f w :
  f ∈ fields -> Str f ∉ labels (columns data) ->
  st_altair_chart fields data ev w = (Raise ValueError, w).
Proof.
  intros Hf Hno. unfold st_altair_chart, lift.
  destruct (forallb (is_column data) fields) eqn:Hall; [|done].
  rewrite forallb_forall in Hall.
  specialize (Hall f (proj1 (list_elem_of_In _ _) Hf)).
  by apply bool_decide_eq_true in Hall.
Qed.

(** ** The line chart *)

(** C8.  Whatever the Close matrix, with no company selected the line-chart
    branch writes the error asking for a selection and nothing else: no long
    form is computed, no chart is drawn, nothing is requested.  With a
    company selected it does not write this error. *)
Theorem multi_line_no_selection df_close_processed w :
  fst (multi_line df_close_processed [] w) = Ok tt /\
  page (snd (multi_line df_close_processed [] w)) = page w ++ [st_error NoSelection] /\
  requests (snd (multi_line df_close_processed [] w)) = requests w /\
  forall company companies, exists written_now,
    page (snd (multi_line df_close_processed (company :: companies) w))
    = page w ++ written_now /\
    st_error NoSelection ∉ written_now.
Proof.
  split; [done|]. split; [done|]. split; [done|].
  intros company companies. unfold multi_line, bind, lift, emit.
  destruct (loc_rows df_close_processed (company :: companies)) as [data_lines|e]; simpl.
  - destruct (data_melt data_lines) as [long|e]; simpl.
    + destruct (st_altair_chart_cases line_fields long (line_chart long)
                  (written [st_write_closing data_lines] w)) as [-> | ->]; simpl.
      * exists [st_write_closing data_lines; line_chart long].
        split; [by rewrite <- app_assoc|]. intros Hin.
        repeat (apply elem_of_cons in Hin as [Hin|Hin]; [discriminate|]).
        by apply elem_of_nil in Hin.
      * exists [st_write_closing data_lines]. split; [done|]. intros Hin.
        apply elem_of_cons in Hin as [Hin|Hin]; [discriminate|].
        by apply elem_of_nil in Hin.
    + exists [st_write_closing data_lines]. split; [done|]. intros Hin.
      apply elem_of_cons in Hin as [Hin|Hin]; [discriminate|].
      by apply elem_of_nil in Hin.
  - exists []. split; [by rewrite app_nil_r|]. apply not_elem_of_nil.
Qed.

(** ** Inverting a mapping *)

Lemma dict_set_fresh d k v :
  k ∉ Dict.keys d -> Dict.set d k v = d ++ [(k, v)].
Proof.
  induction d as [|[k' v'] d IH]; simpl; intros Hk; [done|].
  apply not_elem_of_cons in Hk as [Hne Hk].
  rewrite decide_False by congruence. by rewrite IH.
Qed.

Lemma dict_invert_fold d : forall acc,
  NoDup (Dict.keys acc ++ Dict.values d) ->
  fold_left (fun a kv => Dict.set a (snd kv) (fst kv)) d acc = acc ++ List.map Dict.swap d.
Proof.
  induction d as [|[k v] d IH]; simpl; intros acc Hnd; [by rewrite app_nil_r|].
  assert (v ∉ Dict.keys acc) as Hv.
  { apply NoDup_app in Hnd as (_ & Hd & _). intros Hin. apply (Hd _ Hin). left. }
  rewrite dict_set_fresh by done. rewrite IH.
  - by rewrite <- app_assoc.
  - unfold Dict.keys in *. rewrite map_app. simpl. rewrite <- app_assoc. simpl.
    exact Hnd.
Qed.

(** With pairwise distinct symbols the inverted mapping has the entries of
    the mapping, swapped and in the same order. *)
Lemma dict_invert_swap d :
  NoDup (Dict.values d) -> Dict.invert d = List.map Dict.swap d.
Proof. intros Hnd. unfold Dict.invert, Dict.items. by rewrite dict_invert_fold. Qed.

Lemma dict_get_elem d k v : Dict.get d k = Some v -> (k, v) ∈ d.
Proof.
  induction d as [|[k' v'] d IH]; simpl; [done|].
  case_decide as Hk.
  - intros [= ->]. subst. left.
  - intros H. right. by apply IH.
Qed.

Lemma dict_get_NoDup d k v :
  NoDup (Dict.keys d) -> (k, v) ∈ d -> Dict.get d k = Some v.
Proof.
  induction d as [|[k' v'] d IH]; simpl; intros Hnd Hin; [by apply elem_of_nil in Hin|].
  apply NoDup_cons in Hnd as [Hk' Hnd].
  apply elem_of_cons in Hin as [[= -> ->]|Hin].
  - by rewrite decide_True.
  - rewrite decide_False; [by apply IH|]. intros ->. apply Hk'.
    unfold Dict.keys. apply list_elem_of_In, in_map_iff. exists (k, v).
    split; [done|by apply list_elem_of_In].
Qed.

(** Both directions of lookup. *)
Lemma dict_invert_get d n s :
  NoDup (Dict.values d) -> (n, s) ∈ d -> Dict.get (Dict.invert d) s = Some n.
Proof.
  intros Hnd Hin. rewrite dict_invert_swap by done.
  apply dict_get_NoDup.
  - unfold Dict.keys. rewrite List.map_map. simpl. exact Hnd.
  - apply list_elem_of_In, in_map_iff. exists (n, s). split; [done|by apply list_elem_of_In].
Qed.

Lemma dict_values_elem d s : s ∈ Dict.values d -> exists n, (n, s) ∈ d.
Proof.
  unfold Dict.values. intros Hs. apply list_elem_of_In, in_map_iff in Hs.
  destruct Hs as ([n s'] & <- & Hin). exists n. by apply list_elem_of_In.
Qed.

(** ** Positions of labels *)

Lemma positions_from_S p l : forall k,
  positions_from p l (S k) = List.map S (positions_from p l k).
Proof.
  induction l as [|x l IH]; intros k; simpl; [done|].
  rewrite (IH (S k)). by destruct (p x).
Qed.

Lemma position_cons l x ls :
  position l (x :: ls)
  = if decide (l = x) then Some 0%nat else option_map S (position l ls).
Proof.
  unfold position, positions, eqb_value. simpl.
  case_decide as Hx.
  - by rewrite bool_decide_eq_true_2.
  - rewrite bool_decide_eq_false_2 by done. rewrite positions_from_S.
    by destruct (positions_from _ ls 0).
Qed.

(** In a list of labels computed from [xs] by a function that is injective
    at [x], the label of [x] is found where [x] stands. *)
Lemma position_map {A} (f : A -> value) (xs : list A) (x : A) :
  x ∈ xs -> (forall y, y ∈ xs -> f y = f x -> y = x) ->
  exists i, position (f x) (List.map f xs) = Some i /\
            (i < length xs)%nat /\
            forall B (g : A -> B) (dflt : B), nth i (List.map g xs) dflt = g x.
Proof.
  induction xs as [|y xs IH]; intros Hin Hinj; [by apply elem_of_nil in Hin|].
  simpl. rewrite position_cons. case_decide as Hy.
  - exists 0%nat. split; [done|]. split; [simpl; lia|]. intros B g dflt. simpl.
    f_equal. apply Hinj; [left|done].
  - apply elem_of_cons in Hin as [->|Hin]; [done|].
    destruct IH as (i & Hi & Hlt & Hg); [done|by intros z Hz; apply Hinj; right|].
    exists (S i). rewrite Hi. split; [done|]. split; [simpl; lia|]. intros B g dflt. apply Hg.
Qed.

Lemma position_elem l ls :
  l ∈ ls ->
  exists k, position l ls = Some k /\ (k < length ls)%nat /\ nth k ls NaN = l.
Proof.
  intros Hin.
  destruct (position_map (fun v => v) ls l Hin) as (k & Hk & Hlt & Hg); [done|].
  rewrite List.map_id in Hk. exists k. split; [done|]. split; [done|].
  specialize (Hg value (fun v => v) NaN). by rewrite List.map_id in Hg.
Qed.

Lemma positions_elem p ls j :
  (j < length ls)%nat -> p (nth j ls NaN) = true -> j ∈ positions p ls.
Proof.
  unfold positions. revert j. induction ls as [|x ls IH]; intros j Hlt Hp; simpl in *; [lia|].
  rewrite positions_from_S. destruct j as [|j].
  - rewrite Hp. left.
  - assert (S j ∈ List.map S (positions_from p ls 0)) as Hin.
    { apply list_elem_of_In, in_map. apply list_elem_of_In. apply IH; [lia|done]. }
    destruct (p x); [by right|done].
Qed.

Lemma map_seq_nth {A B} (h : A -> B) (l : list A) (d : A) :
  List.map (fun j => h (nth j l d)) (seq 0 (length l)) = List.map h l.
Proof.
  induction l as [|x l IH]; simpl; [done|].
  f_equal. rewrite <- seq_shift, List.map_map. exact IH.
Qed.

Lemma cell_column j rows k : cell (column j rows) k = cell (nth k rows []) j.
Proof.
  unfold cell, column. revert k. induction rows as [|r rows IH]; intros k; simpl.
  - destruct k; simpl; by destruct j.
  - destruct k; [done|]. apply IH.
Qed.

(** The rows of the transposed Close projection are the Close columns. *)
Lemma close_rows js rows :
  List.map (fun j => column j (take_columns js rows)) (seq 0 (length js))
  = List.map (fun jc => column jc rows) js.
Proof.
  rewrite <- (map_seq_nth (fun jc => column jc rows) js 0%nat).
  apply map_ext_in. intros j Hj. apply in_seq in Hj.
  unfold column, take_columns. rewrite List.map_map.
  apply map_ext. intros row. unfold cell at 1.
  rewrite (nth_indep _ NaN (cell row 0%nat)) by (rewrite length_map; lia).
  by rewrite map_nth.
Qed.

Lemma close_symbols_map hist :
  close_symbols hist
  = List.map (fun j => level1 (nth j (labels (columns hist)) NaN)) (close_columns hist).
Proof. unfold close_symbols, take. by rewrite List.map_map. Qed.

(** A Close column of an OHLC table is the column (Close, s) of a requested
    symbol [s]. *)
Lemma close_column_label syms hist j :
  ohlc_table syms hist -> j ∈ close_columns hist ->
  (j < length (labels (columns hist)))%nat /\
  exists s, nth j (labels (columns hist)) NaN = Tup (Str "Close") (Str s) /\ s ∈ syms.
Proof.
  intros H Hj. pose proof (positions_bound
    (fun l => eqb_value (level0 l) (Str "Close")) (labels (columns hist))) as Hb.
  rewrite Forall_forall in Hb. destruct (Hb j Hj) as [Hlt Hp]. split; [done|].
  pose proof (ohlc_columns_shape _ _ H) as Hs. rewrite Forall_forall in Hs.
  destruct (Hs (nth j (labels (columns hist)) NaN)) as (f & s & Hl & Hin).
  { apply list_elem_of_In. by apply nth_In. }
  rewrite Hl in Hp |- *. rewrite level0_close_eqb in Hp.
  apply bool_decide_eq_true in Hp as ->. by exists s.
Qed.

(** C9.  For an OHLC table of the symbols of a mapping with pairwise distinct
    display names and pairwise distinct symbols, lines 56 to 64 compute a
    matrix whose row axis is named "Name", whose columns are the dates of the
    table, whose row labels are all display names of the mapping, and whose
    entry at (display name, date) is, for every instrument and every date,
    the Close value of the table at (date, symbol). *)
Theorem df_close_entries tks hist :
  tks <> [] ->
  NoDup (Dict.keys tks) ->
  NoDup (Dict.values tks) ->
  ohlc_table (Dict.values tks) hist ->
  exists m,
    df_close hist tks = Ok m /\
    name (index m) = Some "Name" /\
    labels (columns m) = labels (index hist) /\
    Forall (fun l => exists n, l = Str n /\ n ∈ Dict.keys tks) (labels (index m)) /\
    (forall n s d, (n, s) ∈ tks -> d ∈ labels (index hist) ->
       exists v, at_labels m (Str n) d = Some v /\
                 at_labels hist d (Tup (Str "Close") (Str s)) = Some v).
Proof.
  intros Hne Hkeys Hvals H.
  assert (forall n s, (n, s) ∈ tks -> s ∈ Dict.values tks) as Hval.
  { intros n s Hin. unfold Dict.values. apply list_elem_of_In, in_map_iff.
    exists (n, s). split; [done|by apply list_elem_of_In]. }
  assert (forall n s, (n, s) ∈ tks -> n ∈ Dict.keys tks) as Hkey.
  { intros n s Hin. unfold Dict.keys. apply list_elem_of_In, in_map_iff.
    exists (n, s). split; [done|by apply list_elem_of_In]. }
  assert (labels (columns hist) <> []) as Hcols.
  { destruct tks as [|[n s] tks']; [done|].
    assert (Tup (Str "Close") (Str s) ∈ labels (columns hist)) as Hc.
    { apply (ohlc_columns_fields _ _ H); [unfold FIELDS; set_solver|simpl; left]. }
    intros Hnil. rewrite Hnil in Hc. by apply elem_of_nil in Hc. }
  destruct (ohlc_table_close _ _ H Hcols) as [Hjs Hsym].
  rewrite df_close_grouped;
    [|apply (ohlc_columns_kind _ _ H)|done|
     eapply Forall_impl; [apply Hsym|]; simpl; intros c (s & -> & _ & Hs); congruence].
  eexists. split; [reflexivity|]. simpl.
  split; [reflexivity|]. split; [reflexivity|]. split.
  - apply Forall_forall. intros l Hl. apply list_elem_of_In, in_map_iff in Hl.
    destruct Hl as (c & <- & Hc). rewrite Forall_forall in Hsym.
    destruct (Hsym c) as (s & -> & Hs & _); [by apply list_elem_of_In|].
    destruct (dict_values_elem _ _ Hs) as [n Hn].
    exists n. simpl. rewrite (dict_invert_get _ n s) by done. split; [done|by eapply Hkey].
  - intros n s d Hin Hd.
    assert (Tup (Str "Close") (Str s) ∈ labels (columns hist)) as Hc.
    { apply (ohlc_columns_fields _ _ H); [unfold FIELDS; set_solver|by eapply Hval]. }
    destruct (position_elem _ _ Hc) as (jc & Hpos & Hlt & Hnth).
    destruct (position_elem _ _ Hd) as (k & Hk & _ & _).
    assert (jc ∈ close_columns hist) as Hjc.
    { apply positions_elem; [done|]. rewrite Hnth. by rewrite level0_close_eqb. }
    set (f := fun j => map_label (Dict.invert tks)
                         (level1 (nth j (labels (columns hist)) NaN))).
    assert (f jc = Str n) as Hf.
    { unfold f. rewrite Hnth. simpl. by rewrite (dict_invert_get _ n s). }
    destruct (position_map f (close_columns hist) jc Hjc) as (i & Hi & _ & Hg).
    { intros y Hy Hfy.
      destruct (close_column_label _ _ _ H Hy) as (Hylt & s' & Hys' & Hs').
      destruct (dict_values_elem _ _ Hs') as [n' Hn'].
      unfold f in Hfy. rewrite Hys', Hnth in Hfy. simpl in Hfy.
      rewrite (dict_invert_get _ n' s'), (dict_invert_get _ n s) in Hfy by done.
      injection Hfy as ->.
      assert (s' = s) as ->.
      { apply (dict_get_NoDup _ _ _ Hkeys) in Hn', Hin. congruence. }
      apply (proj1 (List.NoDup_nth (labels (columns hist)) NaN)
               (proj1 (NoDup_ListNoDup _) (ohlc_columns_nodup _ _ H)));
        [done..|congruence]. }
    exists (cell (nth k (data hist) []) jc).
    unfold at_labels. simpl. rewrite close_symbols_map, List.map_map.
    fold f. rewrite <- Hf, Hi, Hk, Hpos, close_rows, Hg.
    by rewrite cell_column.
Qed.

Lemma sample_two_close : df_close Sample.hist2 Sample.two = Ok Sample.close2.
Proof. reflexivity. Qed.

Lemma df_close_entries_witness :
  Sample.two <> [] /\ NoDup (Dict.keys Sample.two) /\ NoDup (Dict.values Sample.two) /\
  ohlc_table (Dict.values Sample.two) Sample.hist2 /\
  exists m,
    df_close Sample.hist2 Sample.two = Ok m /\
    name (index m) = Some "Name" /\
    labels (columns m) = labels (index Sample.hist2) /\
    Forall (fun l => exists n, l = Str n /\ n ∈ Dict.keys Sample.two) (labels (index m)) /\
    (forall n s d, (n, s) ∈ Sample.two -> d ∈ labels (index Sample.hist2) ->
       exists v, at_labels m (Str n) d = Some v /\
                 at_labels Sample.hist2 d (Tup (Str "Close") (Str s)) = Some v).
Proof.
  assert (Sample.two <> []) as H1 by discriminate.
  assert (NoDup (Dict.keys Sample.two)) as H2
    by (apply (bool_decide_unpack _); vm_compute; exact I).
  assert (NoDup (Dict.values Sample.two)) as H3
    by (apply (bool_decide_unpack _); vm_compute; exact I).
  pose proof sample_hist2_ohlc_table as H4.
  split; [exact H1|]. split; [exact H2|]. split; [exact H3|]. split; [exact H4|].
  exact (df_close_entries Sample.two Sample.hist2 H1 H2 H3 H4).
Defined.

(** ** Unique labels *)

Lemma positions_cons p x l :
  positions p (x :: l)
  = (if p x then [0%nat] else []) ++ List.map S (positions p l).
Proof. unfold positions. simpl. rewrite positions_from_S. by destruct (p x). Qed.

(** A label carried by exactly one element of [xs] is found at exactly one
    position, the one where this element stands. *)
Lemma positions_map_unique {A} (p : value -> bool) (f : A -> value) (xs : list A) (x : A) :
  NoDup xs -> x ∈ xs ->
  (forall y, y ∈ xs -> p (f y) = true -> y = x) ->
  p (f x) = true ->
  exists i, positions p (List.map f xs) = [i] /\
            (i < length xs)%nat /\
            forall B (g : A -> B) (dflt : B), nth i (List.map g xs) dflt = g x.
Proof.
  induction xs as [|y xs IH]; intros Hnd Hin Huniq Hp; [by apply elem_of_nil in Hin|].
  apply NoDup_cons in Hnd as [Hy Hnd]. simpl. rewrite positions_cons.
  destruct (p (f y)) eqn:Hpy.
  - assert (y = x) as -> by (apply Huniq; [left|done]).
    assert (positions p (List.map f xs) = []) as ->.
    { apply positions_nil, Forall_forall. intros l Hl.
      apply list_elem_of_In, in_map_iff in Hl as (z & <- & Hz).
      apply list_elem_of_In in Hz.
      destruct (p (f z)) eqn:Hpz; [|done]. exfalso. apply Hy.
      rewrite <- (Huniq z); [done|by right|done]. }
    exists 0%nat. split; [done|]. split; [simpl; lia|]. done.
  - apply elem_of_cons in Hin as [->|Hin]; [congruence|].
    destruct IH as (i & Hi & Hlt & Hg); [done|done|by intros z Hz; apply Huniq; right|done|].
    exists (S i). rewrite Hi. split; [done|]. split; [simpl; lia|]. intros B g dflt. apply Hg.
Qed.

Lemma positions_from_NoDup p l : forall k, NoDup (positions_from p l k).
Proof.
  induction l as [|x l IH]; intros k; simpl; [constructor|].
  destruct (p x); [|apply IH]. apply NoDup_cons. split; [|apply IH].
  intros Hin. pose proof (positions_from_bound p l (S k)) as Hb.
  rewrite Forall_forall in Hb. destruct (Hb k Hin) as [? _]. lia.
Qed.

Lemma positions_NoDup p l : NoDup (positions p l).
Proof. apply positions_from_NoDup. Qed.

Lemma zip_cons_length xs rows : length (zip_cons xs rows) = length xs.
Proof.
  revert rows. induction xs as [|x xs IH]; intros rows; [done|].
  destruct rows; simpl; by rewrite IH.
Qed.

(** ** The candlestick chart *)

Lemma loc_level1_grouped df key :
  kind (columns df) = MultiIndex ->
  let js := positions (fun l => eqb_value (level1 l) (Str key)) (labels (columns df)) in
  js <> [] ->
  loc_level1 df key
  = Ok (mk_df (index df)
              (mk_axis MultiIndex (take js (labels (columns df))) (names (columns df)))
              (take_columns js (data df))).
Proof.
  intros Hk js Hjs. unfold loc_level1. rewrite Hk. fold js. by destruct js.
Qed.

(** In an OHLC table the columns of the symbol [sym], once the symbol level
    is dropped, carry each field name exactly once, at the place of the
    column (field, sym). *)
Lemma field_lookup syms hist sym F :
  ohlc_table syms hist -> sym ∈ syms -> F ∈ FIELDS ->
  let js := positions (fun l => eqb_value (level1 l) (Str sym)) (labels (columns hist)) in
  let f := fun j => level0 (nth j (labels (columns hist)) NaN) in
  exists i, positions (fun l => eqb_value l (Str F)) (List.map f js) = [i] /\
            nth i (List.map f js) NaN = Str F /\
            forall row, nth i (List.map (cell row) js) NaN
                        = cell row (field_position hist F sym).
Proof.
  intros H Hsym HF js f.
  assert (Tup (Str F) (Str sym) ∈ labels (columns hist)) as Hc
    by (by apply (ohlc_columns_fields _ _ H)).
  destruct (position_elem _ _ Hc) as (jF & Hpos & Hlt & Hnth).
  assert (field_position hist F sym = jF) as HjF by (unfold field_position; by rewrite Hpos).
  assert (jF ∈ js) as Hin.
  { apply positions_elem; [done|]. rewrite Hnth. simpl. by apply bool_decide_eq_true_2. }
  destruct (positions_map_unique (fun l => eqb_value l (Str F)) f js jF) as (i & Hi & _ & Hg).
  - apply positions_NoDup.
  - done.
  - intros y Hy Hpy.
    pose proof (positions_bound (fun l => eqb_value (level1 l) (Str sym))
                  (labels (columns hist))) as Hb.
    rewrite Forall_forall in Hb. destruct (Hb y Hy) as [Hylt Hl1].
    pose proof (ohlc_columns_shape _ _ H) as Hs. rewrite Forall_forall in Hs.
    destruct (Hs (nth y (labels (columns hist)) NaN)) as (f' & s' & Hl & _).
    { apply list_elem_of_In. by apply nth_In. }
    unfold f in Hpy. rewrite Hl in Hpy, Hl1. simpl in Hpy, Hl1.
    apply bool_decide_eq_true in Hpy, Hl1.
    injection Hpy as ->. injection Hl1 as ->.
    apply (proj1 (List.NoDup_nth (labels (columns hist)) NaN)
             (proj1 (NoDup_ListNoDup _) (ohlc_columns_nodup _ _ H)));
      [done..|congruence].
  - unfold f. rewrite Hnth. simpl. by apply bool_decide_eq_true_2.
  - exists i. split; [done|]. split.
    + rewrite (Hg value f NaN). unfold f. by rewrite Hnth.
    + intros row. rewrite HjF. apply Hg.
Qed.

(** Lines 152 to 154 on an OHLC table: the dates and the four prices of the
    symbol, date after date. *)
Lemma ohlc_data_table syms hist sym :
  ohlc_table syms hist -> sym ∈ syms ->
  ohlc_data hist sym
  = Ok (mk_df (mk_axis RangeIndex (range (length (labels (index hist)))) [None])
              (mk_axis Index (date_label hist :: List.map Str FIELDS)
                       (firstn 1 (names (columns hist))))
              (candles hist sym)).
Proof.
  intros H Hsym.
  destruct (field_lookup _ _ _ "Open" H Hsym) as (iO & HO & HlO & HcO);
    [unfold FIELDS; set_solver|].
  destruct (field_lookup _ _ _ "High" H Hsym) as (iH & HH & HlH & HcH);
    [unfold FIELDS; set_solver|].
  destruct (field_lookup _ _ _ "Low" H Hsym) as (iL & HL & HlL & HcL);
    [unfold FIELDS; set_solver|].
  destruct (field_lookup _ _ _ "Close" H Hsym) as (iC & HC & HlC & HcC);
    [unfold FIELDS; set_solver|].
  unfold ohlc_data.
  rewrite loc_level1_grouped; [|apply (ohlc_columns_kind _ _ H)|].
  2:{ intros Hn. rewrite Hn in HO. simpl in HO. done. }
  simpl. unfold droplevel1. simpl. unfold set_columns, ncols. simpl.
  rewrite decide_True by (unfold take; by rewrite !length_map).
  simpl. unfold getitem_list. simpl.
  unfold take. rewrite !List.map_map.
  rewrite HO, HH, HL, HC. simpl. rewrite HlO, HlH, HlL, HlC.
  assert (take_columns [iO; iH; iL; iC]
            (take_columns
               (positions (fun l => eqb_value (level1 l) (Str sym)) (labels (columns hist)))
               (data hist))
          = List.map (fun row => List.map (fun f => cell row (field_position hist f sym)) FIELDS)
                     (data hist)) as ->.
  { unfold take_columns. rewrite List.map_map. apply map_ext. intros row. simpl.
    unfold cell at 1 3 5 7. by rewrite HcO, HcH, HcL, HcC. }
  unfold reset_index, reset_label, date_label, candles. simpl.
  pose proof (ohlc_index_name _ _ H) as Hname.
  destruct (name (index hist)) as [n|] eqn:Hn.
  - rewrite bool_decide_eq_false_2; [done|].
    intros Hin. unfold FIELDS in Hname.
    repeat (apply elem_of_cons in Hin as [[= ->]|Hin]);
      try (by apply elem_of_nil in Hin);
      (eapply Hname; [|reflexivity]); set_solver.
  - rewrite (bool_decide_eq_false_2 (Str "index" ∈ _))
      by (apply (bool_decide_unpack _); vm_compute; exact I).
    done.
Qed.

Lemma zip_cons_column0 xs rows : column 0 (zip_cons xs rows) = xs.
Proof.
  unfold column. revert rows. induction xs as [|x xs IH]; intros rows; [done|].
  destruct rows; simpl; by rewrite IH.
Qed.

(** The fields of the candlestick chart are columns of the table of lines
    152 to 154 exactly when the dates are filed under "Date". *)
Lemma candle_chart_rendered idx nms rows dl ev w :
  let o := mk_df idx (mk_axis Index (dl :: List.map Str FIELDS) nms) rows in
  st_altair_chart candle_fields o ev w
  = if decide (dl = Str "Date") then (Ok tt, written [ev] w) else (Raise ValueError, w).
Proof.
  intros o. destruct (decide (dl = Str "Date")) as [->|Hdl].
  - apply st_altair_chart_drawn. apply (bool_decide_unpack _). vm_compute. exact I.
  - apply (st_altair_chart_refused _ _ _ "Date").
    + apply (bool_decide_unpack _). vm_compute. exact I.
    + simpl. intros Hin. apply elem_of_cons in Hin as [Hin|Hin]; [congruence|].
      revert Hin. apply (bool_decide_unpack _). vm_compute. exact I.
Qed.

(** The candlestick branch on an OHLC table, for a company of the mapping
    whose symbol the table has. *)
Lemma candlestick_table syms hist company sym w :
  ohlc_table syms hist ->
  sym ∈ syms ->
  Dict.get tickers company = Some sym ->
  exists o,
    ohlc_data hist sym = Ok o /\
    labels (columns o) = [date_label hist; Str "Open"; Str "High"; Str "Low"; Str "Close"] /\
    data o = candles hist sym /\
    candlestick hist company w
    = if decide (labels (index hist) = [])
      then (Ok tt, written [st_write_candle company sym; st_error (EmptyOHLC company)] w)
      else if decide (date_label hist = Str "Date")
           then (Ok tt, written [st_write_candle company sym; candle_chart o] w)
           else (Raise ValueError, written [st_write_candle company sym] w).
Proof.
  intros H Hsym Hget. eexists. split; [by eapply ohlc_data_table|].
  split; [reflexivity|]. split; [reflexivity|].
  unfold candlestick, bind, lift, dict_getitem, emit. rewrite Hget. simpl.
  rewrite (ohlc_data_table syms) by done. unfold empty. simpl.
  destruct (labels (index hist)) as [|d ds] eqn:Hidx; simpl.
  - by rewrite written_written.
  - rewrite candle_chart_rendered.
    destruct (decide (date_label hist = Str "Date")); [by rewrite written_written | done].
Qed.

(** C7.  For an OHLC table and a symbol of it, the table handed to the
    candlestick chart has exactly the columns date, Open, High, Low and
    Close, and its rows are, date after date of the index of the source, the
    date and the four prices of the symbol: one row per date of the index,
    whether or not the symbol has a price on that date.  The candlestick
    branch writes the error for the company instead of drawing when this
    table has no row; with a row it draws the chart from the table when the
    dates are filed under "Date", the field the chart names, and raises
    [ValueError] after the heading otherwise. *)
Theorem ohlc_data_one_row_per_date syms hist company sym w :
  ohlc_table syms hist ->
  sym ∈ syms ->
  Dict.get tickers company = Some sym ->
  exists o,
    ohlc_data hist sym = Ok o /\
    labels (columns o) = [date_label hist; Str "Open"; Str "High"; Str "Low"; Str "Close"] /\
    data o = candles hist sym /\
    column 0 (data o) = labels (index hist) /\
    length (data o) = length (labels (index hist)) /\
    candlestick hist company w
    = if decide (labels (index hist) = [])
      then (Ok tt, written [st_write_candle company sym; st_error (EmptyOHLC company)] w)
      else if decide (date_label hist = Str "Date")
           then (Ok tt, written [st_write_candle company sym; candle_chart o] w)
           else (Raise ValueError, written [st_write_candle company sym] w).
Proof.
  intros H Hsym Hget.
  destruct (candlestick_table syms hist company sym w H Hsym Hget)
    as (o & Ho & Hcols & Hdata & Hrun).
  exists o. split; [done|]. split; [done|]. split; [done|].
  split; [rewrite Hdata; apply zip_cons_column0|].
  split; [rewrite Hdata; apply zip_cons_length|]. done.
Qed.

Lemma ohlc_data_one_row_per_date_witness :
  let w := boot Sample.now0 (Sample.answers Sample.hist2) in
  ohlc_table ["AAPL"; "META"] Sample.hist2 /\ "META" ∈ ["AAPL"; "META"] /\
  Dict.get tickers "meta" = Some "META" /\
  exists o,
    ohlc_data Sample.hist2 "META" = Ok o /\
    labels (columns o) = [Str "Date"; Str "Open"; Str "High"; Str "Low"; Str "Close"] /\
    data o = candles Sample.hist2 "META" /\
    column 0 (data o)
    = [Sample.midnight 739918; Sample.midnight 739921; Sample.midnight 739922] /\
    length (data o) = 3%nat /\
    candlestick Sample.hist2 "meta" w
    = (Ok tt, written [st_write_candle "meta" "META"; candle_chart o] w).
Proof.
  intros w.
  assert ("META" ∈ ["AAPL"; "META"]) as H2 by (apply (bool_decide_unpack _); vm_compute; exact I).
  split; [exact sample_hist2_ohlc_table|]. split; [exact H2|]. split; [reflexivity|].
  exact (ohlc_data_one_row_per_date ["AAPL"; "META"] Sample.hist2 "meta" "META" w
           sample_hist2_ohlc_table H2 eq_refl).
Defined.

(** C7, as the claim has it, fails for a date on which the instrument has no
    prices: META has prices on two of the three dates of the sample, yet its
    table has three rows, the one of 2026-11-02 with four missing values. *)
Lemma ohlc_data_keeps_dates_without_prices :
  exists o,
    ohlc_data Sample.hist2 "META" = Ok o /\
    length (dates_present Sample.hist2 "META") = 2%nat /\
    length (data o) = 3%nat /\
    nth 1 (data o) [] = [Sample.midnight 739921; NaN; NaN; NaN; NaN].
Proof. eexists. split; [reflexivity|]. repeat split. Qed.

(** A table whose dates are not filed under "Date": the provider names the
    index of intraday answers "Datetime".  The chart is refused. *)
Example candlestick_datetime_index :
  let hist := mk_df (mk_axis DatetimeIndex (labels (index Sample.hist2)) [Some "Datetime"])
                    (columns Sample.hist2) (data Sample.hist2) in
  let w := boot Sample.now0 (Sample.answers hist) in
  candlestick hist "apple" w = (Raise ValueError, written [st_write_candle "apple" "AAPL"] w).
Proof. reflexivity. Qed.

(** The candlestick table of AAPL in the sample, and the branch on a table
    without rows. *)
Example sample_candles :
  candles Sample.hist2 "AAPL"
  = [[Sample.midnight 739918; Num 26950; Num 27200; Num 26900; Num 27010];
     [Sample.midnight 739921; Num 27050; Num 27300; Num 27000; Num 27100];
     [Sample.midnight 739922; Num 27100; Num 27150; Num 26800; Num 26980]].
Proof. reflexivity. Qed.

Example candlestick_no_rows :
  page (snd (candlestick Sample.no_rows "apple"
               (boot Sample.now0 (Sample.answers Sample.no_rows))))
  = [st_write_candle "apple" "AAPL"; st_error (EmptyOHLC "apple")].
Proof. reflexivity. Qed.

Example sample_candles_meta :
  candles Sample.hist2 "META"
  = [[Sample.midnight 739918; Num 64100; Num 65000; Num 64000; Num 64820];
     [Sample.midnight 739921; NaN; NaN; NaN; NaN];
     [Sample.midnight 739922; Num 64950; Num 65500; Num 64900; Num 65010]].
Proof. reflexivity. Qed.

(** ** Selecting the rows of the Close matrix *)

Lemma positions_ext p q l :
  (forall x, p x = q x) -> positions p l = positions q l.
Proof.
  intros Hpq. unfold positions. generalize 0%nat.
  induction l as [|x l IH]; intros k; simpl; [done|]. by rewrite Hpq, !IH.
Qed.

Lemma eqb_value_sym a b : eqb_value a b = eqb_value b a.
Proof. unfold eqb_value. apply bool_decide_ext. split; congruence. Qed.

(** Among pairwise distinct labels a label is found once, where [position]
    finds it. *)
Lemma positions_unique ls l :
  NoDup ls -> l ∈ ls ->
  exists i, positions (fun x => eqb_value x l) ls = [i] /\
            position l ls = Some i /\ nth i ls NaN = l.
Proof.
  intros Hnd Hin.
  destruct (positions_map_unique (fun x => eqb_value x l) (fun v => v) ls l)
    as (i & Hi & _ & Hg); [done|done| |by apply bool_decide_eq_true_2|].
  { intros y _ Hy. by apply bool_decide_eq_true in Hy. }
  rewrite List.map_id in Hi. exists i. split; [done|]. split.
  - unfold position. rewrite (positions_ext _ (fun x => eqb_value x l)), Hi; [done|].
    intros x. apply eqb_value_sym.
  - specialize (Hg value (fun v => v) NaN). by rewrite List.map_id in Hg.
Qed.

Lemma loc_positions_selected ls sel :
  NoDup ls -> Forall (fun n => Str n ∈ ls) sel ->
  exists ps, loc_positions ls sel = Ok ps /\
             List.map Some ps = List.map (fun n => position (Str n) ls) sel /\
             take ps ls = List.map Str sel.
Proof.
  intros Hnd. induction sel as [|n sel IH]; intros Hsel; simpl.
  - by exists [].
  - apply Forall_cons in Hsel as [Hn Hsel].
    destruct (IH Hsel) as (ps & Hps & Hpos & Htake).
    destruct (positions_unique ls (Str n) Hnd Hn) as (i & Hi & Hp & Hnth).
    rewrite Hi, Hps. simpl. exists (i :: ps). split; [done|].
    simpl. by rewrite Hp, Hpos, Hnth, <- Htake.
Qed.

(** Line 112 on a Close matrix: the rows of the selected instruments, in the
    order of the selection. *)
Lemma loc_rows_selected m sel :
  NoDup (labels (index m)) -> Forall (fun n => Str n ∈ labels (index m)) sel ->
  loc_rows m sel
  = Ok (mk_df (mk_axis (kind (index m)) (List.map Str sel) (names (index m)))
              (columns m)
              (List.map (row_of m) sel)).
Proof.
  intros Hnd Hsel. unfold loc_rows.
  destruct (loc_positions_selected _ _ Hnd Hsel) as (ps & Hps & Hpos & Htake).
  rewrite Hps. simpl. rewrite Htake. do 2 f_equal. unfold take_rows, row_of.
  clear Hsel Hps Htake. revert ps Hpos. induction sel as [|n sel IH]; intros [|i ps] Hpos; try done.
  simpl in *. injection Hpos as Hi Hpos. rewrite <- Hi. f_equal. by apply IH.
Qed.

(** ** Un-pivoting *)

Lemma column_zip_cons_0 xs rows : column 0 (zip_cons xs rows) = xs.
Proof.
  revert rows. induction xs as [|x xs IH]; intros rows; [done|].
  destruct rows; simpl; f_equal; apply IH.
Qed.

Lemma column_zip_cons_S i xs rows :
  length xs = length rows -> column (S i) (zip_cons xs rows) = column i rows.
Proof.
  revert rows. induction xs as [|x xs IH]; intros [|r rows] Hl; try done.
  simpl in *. f_equal. apply IH. lia.
Qed.

Lemma positions_all p l :
  Forall (fun x => p x = true) l -> positions p l = seq 0 (length l).
Proof.
  induction l as [|x l IH]; intros Hall; [done|].
  apply Forall_cons in Hall as [Hx Hall].
  rewrite positions_cons, Hx, IH by done. simpl. by rewrite seq_shift.
Qed.

Lemma zip3_app xs1 xs2 ys1 ys2 zs1 zs2 :
  length xs1 = length ys1 -> length ys1 = length zs1 ->
  zip3 (xs1 ++ xs2) (ys1 ++ ys2) (zs1 ++ zs2) = zip3 xs1 ys1 zs1 ++ zip3 xs2 ys2 zs2.
Proof.
  revert ys1 zs1. induction xs1 as [|x xs1 IH]; intros [|y ys1] [|z zs1] H1 H2; try done.
  simpl in *. f_equal. apply IH; lia.
Qed.

Lemma zip3_map {A} (f g h : A -> value) (l : list A) :
  zip3 (List.map f l) (List.map g l) (List.map h l) = List.map (fun x => [f x; g x; h x]) l.
Proof. induction l as [|x l IH]; simpl; [done|]. by rewrite IH. Qed.

Lemma repeat_map_seq {A} (x : A) n : repeat x n = List.map (fun _ => x) (seq 0 n).
Proof.
  induction n as [|n IH]; [done|]. simpl. rewrite <- seq_shift, List.map_map. by f_equal.
Qed.

(** The three columns that [pd.melt] builds, read row by row, are the long
    form. *)
Lemma melted_rows (dates : list value) (cells : string -> nat -> value) (sel : list string) :
  zip3 (List.concat (repeat dates (length sel)))
       (List.concat (List.map (fun n => repeat (Str n) (length dates)) sel))
       (List.concat (List.map (fun n => List.map (cells n) (seq 0 (length dates))) sel))
  = flat_map (fun n => List.map (fun j => [nth j dates NaN; Str n; cells n j])
                                (seq 0 (length dates))) sel.
Proof.
  induction sel as [|n sel IH]; [done|]. simpl.
  rewrite zip3_app, IH by (by rewrite ?repeat_length, ?length_map, ?length_seq).
  f_equal. rewrite repeat_map_seq.
  rewrite <- (zip3_map (fun j => nth j dates NaN) (fun _ => Str n) (cells n)).
  f_equal. rewrite (map_seq_nth (fun d => d)). symmetry. apply List.map_id.
Qed.

Lemma concat_map_length {A B} (f : A -> list B) (l : list A) (k : nat) :
  (forall x, length (f x) = k) -> length (List.concat (List.map f l)) = (length l * k)%nat.
Proof.
  intros Hf. induction l as [|x l IH]; [done|].
  simpl. rewrite length_app, Hf, IH. lia.
Qed.

(** [pd.melt] on a table whose first column [c] holds the identifiers [ids]
    and whose other columns are labelled [vars], under the axis name [nm]. *)
Lemma melt_frame frame c vars ids rows nm :
  labels (columns frame) = c :: vars ->
  name (columns frame) = Some nm ->
  length (labels (index frame)) = length ids ->
  data frame = zip_cons ids rows ->
  length rows = length ids ->
  c ∉ vars -> Str "value" ∉ c :: vars -> c <> Str nm -> nm <> "value" ->
  melt frame c
  = Ok (mk_df (mk_axis RangeIndex (range (length vars * length ids)) [None])
              (mk_axis Index [c; Str nm; Str "value"] [None])
              (zip3 (List.concat (repeat ids (length vars)))
                    (List.concat (List.map (fun v => repeat v (length ids)) vars))
                    (List.concat (List.map (fun i => column i rows) (seq 0 (length vars)))))).
Proof.
  intros Hl Hn Hi Hdata Hrows Hc Hv Hcn Hnv.
  assert (c <> Str "value") as Hcv by (intros ->; apply Hv; left).
  unfold melt, var_name. rewrite Hl, Hn, Hi, Hdata.
  rewrite bool_decide_eq_false_2 by done.
  rewrite !positions_cons.
  assert (eqb_value c c = true) as Hcc by (by apply bool_decide_eq_true_2).
  rewrite !Hcc.
  cbn [negb app].
  rewrite (positions_all (fun l => negb (eqb_value c l)) vars).
  2:{ apply Forall_forall. intros x Hx. apply negb_true_iff, bool_decide_eq_false_2.
      intros ->. done. }
  cbv zeta. rewrite column_zip_cons_0, length_map, length_seq, !List.map_map.
  assert (List.map (fun i => column (S i) (zip_cons ids rows)) (seq 0 (length vars))
          = List.map (fun i => column i rows) (seq 0 (length vars))) as ->.
  { apply map_ext. intros i. by apply column_zip_cons_S. }
  assert (List.map (fun i => repeat (nth (S i) (c :: vars) NaN) (length ids))
                   (seq 0 (length vars))
          = List.map (fun v => repeat v (length ids)) vars) as ->
    by apply (map_seq_nth (fun v => repeat v (length ids)) vars NaN).
  rewrite (concat_map_length _ _ (length ids))
    by (intros i; unfold column; by rewrite length_map).
  rewrite length_seq.
  cbn [assigned_last].
  rewrite (decide_True (P := c = c)) by done.
  rewrite (decide_False (P := Str "value" = c)) by done.
  rewrite (decide_False (P := Str nm = c)) by done.
  rewrite (decide_False (P := c = Str nm)) by done.
  rewrite (decide_False (P := Str "value" = Str nm)) by congruence.
  rewrite (decide_True (P := Str nm = Str nm)) by done.
  rewrite (decide_False (P := c = Str "value")) by done.
  rewrite (decide_True (P := Str "value" = Str "value")) by done.
  rewrite (decide_False (P := Str nm = Str "value")) by congruence.
  reflexivity.
Qed.

(** Lines 116 to 121 on the selected rows of a Close matrix: the long form
    of the specification, under the three column labels of the chart. *)
Lemma data_melt_long m sel :
  close_matrix m -> Forall (fun n => Str n ∈ labels (index m)) sel ->
  data_melt (mk_df (mk_axis (kind (index m)) (List.map Str sel) (names (index m)))
                   (columns m)
                   (List.map (row_of m) sel))
  = Ok (mk_df (mk_axis RangeIndex (range (length sel * ncols m)) [None])
              (mk_axis Index [Str "Date"; Str "Name"; Str "Stock Prices(USD)"] [None])
              (long_form m sel)).
Proof.
  intros H Hsel.
  assert (forall l, l ∉ labels (index m) -> l ∉ List.map Str sel) as Hrows.
  { intros l Hl Hin. apply list_elem_of_In, in_map_iff in Hin as (n & Hn & Hin).
    rewrite Forall_forall in Hsel. apply list_elem_of_In in Hin.
    apply Hl. rewrite <- Hn. by apply Hsel. }
  pose proof (Hrows _ (cm_dates_label_row _ H)) as Hdsel.
  pose proof (cm_dates_label_value _ H) as Hdv.
  pose proof (cm_dates_label_name _ H) as Hdn.
  assert (Str "value" ∉ dates_label m :: List.map Str sel) as Hvsel.
  { intros Hin. apply elem_of_cons in Hin as [Heq|Hin]; [done|].
    by apply (Hrows _ (cm_no_value_row _ H)). }
  assert (reset_label
            (mk_df (columns m)
                   (mk_axis (kind (index m)) (List.map Str sel) (names (index m))) [])
          = dates_label m) as Hlabel.
  { unfold reset_label, dates_label in *. cbn [index columns labels].
    destruct (name (columns m)) as [d|]; [done|].
    by rewrite bool_decide_eq_false_2. }
  unfold data_melt, reset_index, transpose, first_label.
  unfold reset_label in *. cbn [index columns data labels names kind] in *.
  rewrite Hlabel. rewrite bool_decide_eq_false_2 by done.
  cbn [res_bind index columns data labels names kind].
  erewrite (melt_frame _ (dates_label m) (List.map Str sel) (labels (columns m)) _ "Name");
    [|reflexivity|exact (cm_index_name _ H)
     |by cbn [index labels]; unfold range; rewrite length_map, length_seq|reflexivity
     |by rewrite length_map, length_seq|done|done|done|done].
  cbn [res_bind]. unfold rename. cbn [index columns data labels names kind List.map].
  unfold rename_label.
  rewrite (decide_False (P := dates_label m = Str "value")) by done.
  rewrite (decide_True (P := dates_label m = dates_label m)) by done.
  rewrite (decide_False (P := Str "Name" = Str "value")) by congruence.
  rewrite (decide_False (P := Str "Name" = dates_label m)) by congruence.
  rewrite (decide_True (P := Str "value" = Str "value")) by done.
  rewrite !length_map, !List.map_map. unfold ncols at 1.
  cbn [index columns data labels names kind].
  f_equal. f_equal.
  unfold long_form, ncols.
  rewrite <- (melted_rows (labels (columns m)) (fun n j => cell (row_of m n) j) sel).
  f_equal. f_equal.
  rewrite <- (length_map (row_of m) sel).
  rewrite <- (List.map_map (row_of m)
                (fun r => List.map (fun j => cell r j) (seq 0 (length (labels (columns m)))))).
  rewrite <- (map_seq_nth
                (fun r => List.map (fun j => cell r j) (seq 0 (length (labels (columns m)))))
                (List.map (row_of m) sel) []).
  apply map_ext. intros i. unfold column at 1. rewrite List.map_map.
  apply map_ext. intros j. apply cell_column.
Qed.

Lemma long_form_length m sel : length (long_form m sel) = (length sel * ncols m)%nat.
Proof.
  unfold long_form. rewrite flat_map_concat_map.
  apply concat_map_length. intros n. by rewrite length_map, length_seq.
Qed.

Lemma long_form_elem m sel n j :
  n ∈ sel -> (j < ncols m)%nat ->
  [nth j (labels (columns m)) NaN; Str n; cell (row_of m n) j] ∈ long_form m sel.
Proof.
  intros Hn Hj. unfold long_form. apply list_elem_of_In, in_flat_map.
  exists n. split; [by apply list_elem_of_In|].
  apply in_map_iff. exists j. split; [done|]. apply in_seq. lia.
Qed.

(** The fields of the line chart are the three columns of this long form. *)
Lemma line_chart_rendered idx nms rows ev w :
  st_altair_chart line_fields
    (mk_df idx (mk_axis Index [Str "Date"; Str "Name"; Str "Stock Prices(USD)"] nms) rows)
    ev w
  = (Ok tt, written [ev] w).
Proof.
  apply st_altair_chart_drawn. apply (bool_decide_unpack _). vm_compute. exact I.
Qed.

(** C6.  For a Close matrix and a non-empty selection of its instruments,
    the line-chart branch selects the rows, shows them, and hands the chart a
    long form with the columns Date, Name and Stock Prices(USD) that is
    exactly the long form of the specification: for every selected
    instrument and every date one row, as many rows as there are selected
    instruments times dates, and in each row the cell of the matrix as it is,
    a missing price included. *)
Theorem data_melt_one_row_per_pair m sel w :
  close_matrix m ->
  sel <> [] ->
  Forall (fun n => Str n ∈ labels (index m)) sel ->
  exists data_lines long,
    loc_rows m sel = Ok data_lines /\
    data_melt data_lines = Ok long /\
    labels (columns long) = [Str "Date"; Str "Name"; Str "Stock Prices(USD)"] /\
    data long = long_form m sel /\
    length (data long) = (length sel * ncols m)%nat /\
    (forall n j, n ∈ sel -> (j < ncols m)%nat ->
       [nth j (labels (columns m)) NaN; Str n; cell (row_of m n) j] ∈ data long) /\
    multi_line m sel w
    = (Ok tt, written [st_write_closing data_lines; line_chart long] w).
Proof.
  intros H Hne Hsel.
  eexists _, _. split; [by apply loc_rows_selected; [apply (cm_index_nodup _ H)|]|].
  split; [by apply data_melt_long|].
  split; [reflexivity|]. split; [reflexivity|].
  split; [apply long_form_length|]. split; [apply long_form_elem|].
  destruct sel as [|n sel]; [done|].
  unfold multi_line, bind, lift, emit.
  rewrite loc_rows_selected by (done || apply (cm_index_nodup _ H)).
  rewrite data_melt_long by done. cbn [res_bind].
  rewrite line_chart_rendered. by rewrite written_written.
Qed.

Lemma sample_close2_matrix : close_matrix Sample.close2.
Proof.
  constructor.
  - reflexivity.
  - apply (bool_decide_unpack _). vm_compute. exact I.
  - apply (bool_decide_unpack _). vm_compute. exact I.
  - apply (bool_decide_unpack _). vm_compute. exact I.
  - discriminate.
  - discriminate.
  - apply (bool_decide_unpack _). vm_compute. exact I.
  - discriminate.
  - split; [reflexivity|]. repeat constructor.
Qed.

Lemma sample_selection :
  Forall (fun n => Str n ∈ labels (index Sample.close2)) ["apple"; "meta"].
Proof. repeat constructor; apply (bool_decide_unpack _); vm_compute; exact I. Qed.

Lemma data_melt_one_row_per_pair_witness :
  let w := boot Sample.now0 (Sample.answers Sample.hist2) in
  close_matrix Sample.close2 /\ ["apple"; "meta"] <> [] /\
  Forall (fun n => Str n ∈ labels (index Sample.close2)) ["apple"; "meta"] /\
  exists data_lines long,
    loc_rows Sample.close2 ["apple"; "meta"] = Ok data_lines /\
    data_melt data_lines = Ok long /\
    labels (columns long) = [Str "Date"; Str "Name"; Str "Stock Prices(USD)"] /\
    data long = long_form Sample.close2 ["apple"; "meta"] /\
    length (data long) = 6%nat /\
    (forall n j, n ∈ ["apple"; "meta"] -> (j < 3)%nat ->
       [nth j (labels (columns Sample.close2)) NaN; Str n; cell (row_of Sample.close2 n) j]
       ∈ data long) /\
    multi_line Sample.close2 ["apple"; "meta"] w
    = (Ok tt, written [st_write_closing data_lines; line_chart long] w).
Proof.
  intros w.
  assert (["apple"; "meta"] <> []) as H2 by discriminate.
  split; [exact sample_close2_matrix|]. split; [exact H2|]. split; [exact sample_selection|].
  exact (data_melt_one_row_per_pair Sample.close2 ["apple"; "meta"] w
           sample_close2_matrix H2 sample_selection).
Defined.

(** The scenario of the specification: two instruments, three dates, six
    rows; the missing price of META is the fifth. *)
Example sample_long_form :
  long_form Sample.close2 ["apple"; "meta"]
  = [[Sample.midnight 739918; Str "apple"; Num 27010];
     [Sample.midnight 739921; Str "apple"; Num 27100];
     [Sample.midnight 739922; Str "apple"; Num 26980];
     [Sample.midnight 739918; Str "meta"; Num 64820];
     [Sample.midnight 739921; Str "meta"; NaN];
     [Sample.midnight 739922; Str "meta"; Num 65010]].
Proof. reflexivity. Qed.

(** ** Re-pivoting *)

Lemma add_new_seen seen l :
  Forall (fun x => x ∈ seen) l -> fold_left add_new l seen = seen.
Proof.
  induction l as [|x l IH]; intros Hall; [done|].
  apply Forall_cons in Hall as [Hx Hall]. simpl. unfold add_new at 2.
  rewrite bool_decide_eq_true_2 by done. by apply IH.
Qed.

Lemma add_new_fresh l : forall seen,
  NoDup (seen ++ l) -> fold_left add_new l seen = seen ++ l.
Proof.
  induction l as [|x l IH]; intros seen Hnd; simpl; [by rewrite app_nil_r|].
  unfold add_new at 2. rewrite bool_decide_eq_false_2.
  - rewrite IH; rewrite <- app_assoc; done.
  - apply NoDup_app in Hnd as (_ & Hd & _). intros Hin. apply (Hd _ Hin). left.
Qed.

(** The dates of the long form, in the order of first appearance. *)
Lemma distinct_dates (dates : list value) (k : nat) :
  NoDup dates -> distinct (List.concat (repeat dates (S k))) = dates.
Proof.
  intros Hnd. unfold distinct. cbn [repeat List.concat]. rewrite fold_left_app.
  rewrite (add_new_fresh dates []) by done. simpl.
  apply add_new_seen. apply Forall_forall. intros x Hx.
  apply list_elem_of_In, in_concat in Hx as (l & Hl & Hx).
  apply repeat_spec in Hl as ->. by apply list_elem_of_In.
Qed.

Lemma add_new_repeat seen x k :
  x ∉ seen -> fold_left add_new (repeat x (S k)) seen = seen ++ [x].
Proof.
  intros Hx. cbn [repeat fold_left].
  assert (add_new seen x = seen ++ [x]) as ->
    by (unfold add_new; by rewrite bool_decide_eq_false_2).
  apply add_new_seen, Forall_forall. intros y Hy.
  apply list_elem_of_In, repeat_spec in Hy as ->. apply elem_of_app. right. left.
Qed.

(** The instruments of the long form, in the order of first appearance. *)
Lemma distinct_names (sel : list string) (k : nat) : forall seen,
  NoDup (seen ++ List.map Str sel) ->
  fold_left add_new (List.concat (List.map (fun n => repeat (Str n) (S k)) sel)) seen
  = seen ++ List.map Str sel.
Proof.
  induction sel as [|n sel IH]; intros seen Hnd; [by rewrite app_nil_r|].
  cbn [List.map List.concat] in *. rewrite fold_left_app.
  rewrite add_new_repeat.
  - rewrite IH; rewrite <- app_assoc; done.
  - apply NoDup_app in Hnd as (_ & Hd & _). intros Hin. apply (Hd _ Hin). left.
Qed.

Lemma price_at_skip d n rows1 rows2 :
  Forall (fun row => cell row 0 <> d \/ cell row 1 <> n) rows1 ->
  price_at d n (rows1 ++ rows2) = price_at d n rows2.
Proof.
  induction rows1 as [|row rows1 IH]; intros Hall; [done|].
  apply Forall_cons in Hall as [Hrow Hall]. simpl.
  rewrite IH by done. unfold eqb_value.
  destruct Hrow as [Hd|Hn].
  - by rewrite (bool_decide_eq_false_2 (cell row 0 = d)).
  - rewrite (bool_decide_eq_false_2 (cell row 1 = n)) by done. by rewrite andb_false_r.
Qed.

(** Within the rows of one instrument the price of a date is found in the
    row of that date. *)
Lemma price_at_block (dates : list value) (n : value) (c : nat -> value) j0 rest :
  NoDup dates -> (j0 < length dates)%nat ->
  forall js, j0 ∈ js -> Forall (fun j => (j < length dates)%nat) js ->
  price_at (nth j0 dates NaN) n
           (List.map (fun j => [nth j dates NaN; n; c j]) js ++ rest)
  = c j0.
Proof.
  intros Hnd Hj0 js. induction js as [|j js IH]; intros Hin Hall.
  - by apply elem_of_nil in Hin.
  - apply Forall_cons in Hall as [Hj Hall]. simpl. unfold cell at 1 2 3. simpl.
    unfold eqb_value. rewrite (bool_decide_eq_true_2 (n = n)) by done.
    rewrite andb_true_r. destruct (decide (nth j dates NaN = nth j0 dates NaN)) as [He|He].
    + rewrite bool_decide_eq_true_2 by done. f_equal.
      by apply (proj1 (List.NoDup_nth dates NaN) (proj1 (NoDup_ListNoDup _) Hnd)).
    + rewrite bool_decide_eq_false_2 by done.
      apply elem_of_cons in Hin as [->|Hin]; [done|]. by apply IH.
Qed.

Lemma map_const_repeat {A B} (x : B) (l : list A) :
  List.map (fun _ => x) l = repeat x (length l).
Proof. induction l as [|a l IH]; simpl; [done|]. by rewrite IH. Qed.

Lemma long_form_dates m sel :
  column 0 (long_form m sel) = List.concat (repeat (labels (columns m)) (length sel)).
Proof.
  unfold column, long_form. rewrite flat_map_concat_map, concat_map, List.map_map.
  rewrite <- map_const_repeat. f_equal. apply map_ext. intros n.
  rewrite List.map_map. unfold cell, ncols. simpl.
  rewrite (map_seq_nth (fun d => d)). apply List.map_id.
Qed.

Lemma long_form_names m sel :
  column 1 (long_form m sel)
  = List.concat (List.map (fun n => repeat (Str n) (ncols m)) sel).
Proof.
  unfold column, long_form. rewrite flat_map_concat_map, concat_map, List.map_map.
  f_equal. apply map_ext. intros n.
  rewrite List.map_map. unfold cell. simpl.
  by rewrite map_const_repeat, length_seq.
Qed.

(** In the long form the price of an instrument at a date is the cell of
    the matrix. *)
Lemma price_at_long_form m sel n0 j0 :
  NoDup (labels (columns m)) -> n0 ∈ sel -> (j0 < ncols m)%nat ->
  price_at (nth j0 (labels (columns m)) NaN) (Str n0) (long_form m sel)
  = cell (row_of m n0) j0.
Proof.
  intros Hnd Hn Hj. induction sel as [|n sel IH]; [by apply elem_of_nil in Hn|].
  unfold long_form. cbn [flat_map]. fold (long_form m sel).
  destruct (decide (n = n0)) as [->|Hne].
  - apply (price_at_block (labels (columns m)) (Str n0) (fun j => cell (row_of m n0) j));
      [done|done| |].
    + apply list_elem_of_In, in_seq. unfold ncols in *. lia.
    + apply Forall_forall. intros j Hin. apply list_elem_of_In, in_seq in Hin.
      unfold ncols in *. lia.
  - rewrite price_at_skip.
    + apply IH. by apply elem_of_cons in Hn as [->|Hn].
    + apply Forall_forall. intros row Hrow.
      apply list_elem_of_In, in_map_iff in Hrow as (j & <- & _).
      right. unfold cell. simpl. congruence.
Qed.

Lemma row_of_length m n :
  rectangular m -> Str n ∈ labels (index m) -> length (row_of m n) = ncols m.
Proof.
  intros [Hlen Hrows] Hn. unfold row_of.
  destruct (position_elem _ _ Hn) as (i & -> & Hlt & _).
  rewrite Forall_forall in Hrows. apply Hrows, list_elem_of_In, nth_In. lia.
Qed.

(** C5.  For a Close matrix and a non-empty selection of pairwise distinct
    instruments of it: line 112 keeps exactly the rows of the selected
    instruments, in the order of the selection, over all the dates, and
    re-pivoting the long form that the line-chart branch computes from them
    gives back this filtered submatrix: the selected names, the dates and,
    for every selected instrument, its row of the matrix, cell by cell,
    missing prices included. *)
Theorem repivot_data_melt m sel :
  close_matrix m ->
  sel <> [] ->
  NoDup sel ->
  Forall (fun n => Str n ∈ labels (index m)) sel ->
  exists data_lines long,
    loc_rows m sel = Ok data_lines /\
    data_melt data_lines = Ok long /\
    matrix_of data_lines = submatrix m sel /\
    repivot long = submatrix m sel /\
    m_rows (repivot long) = List.map Str sel /\
    m_dates (repivot long) = labels (columns m) /\
    m_cells (repivot long) = List.map (row_of m) sel.
Proof.
  intros H Hne Hnd Hsel.
  eexists _, _. split; [by apply loc_rows_selected; [apply (cm_index_nodup _ H)|]|].
  split; [by apply data_melt_long|]. split; [reflexivity|].
  match goal with |- ?g /\ _ => assert g as Hrep end; [|by rewrite Hrep].
  unfold repivot, submatrix. cbn [index columns data labels].
  rewrite long_form_dates, long_form_names.
  destruct sel as [|n0 sel0] eqn:Es; [done|]. rewrite <- Es in *.
  assert (exists k, length sel = S k) as [k Hk] by (rewrite Es; simpl; eauto).
  pose proof (cm_dates_nonempty _ H) as Hdates.
  assert (exists k', ncols m = S k') as [k' Hk'].
  { unfold ncols. destruct (labels (columns m)); [done|]. simpl. eauto. }
  rewrite Hk, Hk'.
  rewrite (distinct_dates _ _ (cm_dates_nodup _ H)).
  unfold distinct. rewrite (distinct_names sel k' []).
  2:{ simpl. apply NoDup_fmap_2; [|done]. intros a b. congruence. }
  cbn [app]. f_equal. rewrite List.map_map.
  apply map_ext_in. intros n Hn. apply list_elem_of_In in Hn.
  rewrite Forall_forall in Hsel.
  transitivity (List.map (fun j => cell (row_of m n) j) (seq 0 (ncols m))).
  - assert (labels (columns m)
            = List.map (fun j => nth j (labels (columns m)) NaN) (seq 0 (ncols m))) as Hd
      by (unfold ncols; rewrite (map_seq_nth (fun v => v)); symmetry; apply List.map_id).
    rewrite Hd at 1. rewrite List.map_map.
    apply map_ext_in. intros j Hj. apply in_seq in Hj.
    apply price_at_long_form; [apply (cm_dates_nodup _ H)|done|lia].
  - rewrite <- (row_of_length m n (cm_rectangular _ H) (Hsel _ Hn)).
    unfold cell. rewrite (map_seq_nth (fun v => v)). apply List.map_id.
Qed.

Lemma repivot_data_melt_witness :
  close_matrix Sample.close2 /\ ["meta"; "apple"] <> [] /\ NoDup ["meta"; "apple"] /\
  Forall (fun n => Str n ∈ labels (index Sample.close2)) ["meta"; "apple"] /\
  exists data_lines long,
    loc_rows Sample.close2 ["meta"; "apple"] = Ok data_lines /\
    data_melt data_lines = Ok long /\
    matrix_of data_lines = submatrix Sample.close2 ["meta"; "apple"] /\
    repivot long = submatrix Sample.close2 ["meta"; "apple"] /\
    m_rows (repivot long) = [Str "meta"; Str "apple"] /\
    m_dates (repivot long) = labels (columns Sample.close2) /\
    m_cells (repivot long) = [[Num 64820; NaN; Num 65010]; [Num 27010; Num 27100; Num 26980]].
Proof.
  assert (["meta"; "apple"] <> []) as H2 by discriminate.
  assert (NoDup ["meta"; "apple"]) as H3
    by (apply (bool_decide_unpack _); vm_compute; exact I).
  assert (Forall (fun n => Str n ∈ labels (index Sample.close2)) ["meta"; "apple"]) as H4
    by (repeat constructor; apply (bool_decide_unpack _); vm_compute; exact I).
  split; [exact sample_close2_matrix|]. split; [exact H2|]. split; [exact H3|].
  split; [exact H4|].
  exact (repivot_data_melt Sample.close2 ["meta"; "apple"] sample_close2_matrix H2 H3 H4).
Defined.

(** Re-pivoting the long form of the sample, META selected before AAPL. *)
Example sample_repivot :
  res_bind (loc_rows Sample.close2 ["meta"; "apple"]) (fun data_lines =>
  res_bind (data_melt data_lines) (fun long => Ok (repivot long)))
  = Ok (mk_matrix [Str "meta"; Str "apple"]
                  [Sample.midnight 739918; Sample.midnight 739921; Sample.midnight 739922]
                  [[Num 64820; NaN; Num 65010]; [Num 27010; Num 27100; Num 26980]]).
Proof. reflexivity. Qed.

(** ** A single instrument *)

Lemma positions_at_most_one ls l :
  NoDup ls ->
  positions (fun x => eqb_value x l) ls = [] \/
  exists i, positions (fun x => eqb_value x l) ls = [i].
Proof.
  intros Hnd. destruct (decide (l ∈ ls)) as [Hin|Hnin].
  - right. destruct (positions_unique ls l Hnd Hin) as (i & Hi & _). by exists i.
  - left. apply positions_nil, Forall_forall. intros x Hx.
    apply bool_decide_eq_false_2. by intros ->.
Qed.

(** Over one-level columns with pairwise distinct labels, line 59 yields a
    column, not a table, and line 62 fails on it; without a Close column
    line 59 fails. *)
Lemma df_close_ungrouped hist tks :
  kind (columns hist) <> MultiIndex -> NoDup (labels (columns hist)) ->
  exists e, df_close hist tks = Raise e.
Proof.
  intros Hk Hnd. unfold df_close, getitem.
  destruct (positions_at_most_one (labels (columns hist)) (Str "Close") Hnd)
    as [Hp|[i Hp]]; destruct (kind (columns hist)); try done;
    rewrite Hp; simpl; eauto.
Qed.

(** The labels that lines 51 and 52 give the columns: pairs whose first
    component is itself a pair (symbol, field). *)
Lemma rewrap_labels s hist h :
  kind (index hist) <> DatetimeIndex -> kind (columns hist) <> MultiIndex ->
  rewrap [s] hist = Ok h ->
  kind (columns h) = MultiIndex /\
  Forall (fun l => exists c, l = Tup (Tup (Str s) c) (Str s)) (labels (columns h)).
Proof.
  intros Hi Hc. unfold rewrap, is_kind. simpl.
  rewrite !bool_decide_eq_false_2 by done. simpl.
  unfold from_tuples.
  destruct (combine _ _) as [|p ps] eqn:Hcomb; [done|].
  cbn [res_bind]. unfold set_columns. case_decide; [|done]. intros [= <-].
  cbn [columns kind labels]. split; [done|].
  apply Forall_forall. intros l Hl.
  apply list_elem_of_In in Hl.
  apply (in_map_iff (fun q : value * value => Tup (fst q) (snd q)) (p :: ps) l) in Hl
    as ([a b] & <- & Hin).
  rewrite <- Hcomb in Hin. cbn [fst snd].
  pose proof (in_combine_l _ _ _ _ Hin) as Ha. pose proof (in_combine_r _ _ _ _ Hin) as Hb.
  apply repeat_spec in Hb as ->. apply in_map_iff in Ha as (c & <- & _). eauto.
Qed.

Lemma df_close_rewrapped s h tks :
  kind (columns h) = MultiIndex ->
  Forall (fun l => exists c, l = Tup (Tup (Str s) c) (Str s)) (labels (columns h)) ->
  df_close h tks = Raise KeyError.
Proof.
  intros Hk Hl. unfold df_close, getitem. rewrite Hk.
  assert (positions (fun l => eqb_value (level0 l) (Str "Close")) (labels (columns h)) = [])
    as ->; [|done].
  apply positions_nil. eapply Forall_impl; [exact Hl|]. simpl.
  intros l [c ->]. simpl. by apply bool_decide_eq_false_2.
Qed.

(** For a mapping of one instrument and an answer whose columns lack the
    grouping level (pairwise distinct field labels), lines 47 to 64 raise:
    either the adjustment is skipped, because the index is a
    [DatetimeIndex], and the Close projection is a column; or the adjustment
    runs and leaves no column group named Close. *)
Lemma shaped_single_ungrouped n s hist :
  kind (columns hist) <> MultiIndex -> NoDup (labels (columns hist)) ->
  exists e, shaped [(n, s)] hist = Raise e.
Proof.
  intros Hk Hnd. unfold shaped. simpl.
  destruct (decide (kind (index hist) = DatetimeIndex)) as [Hi|Hi].
  - assert (rewrap [s] hist = Ok hist) as ->.
    { unfold rewrap, is_kind. simpl. by rewrite (bool_decide_eq_true_2 _ Hi). }
    simpl. destruct (df_close_ungrouped hist [(n, s)] Hk Hnd) as [e ->]. simpl. eauto.
  - destruct (rewrap [s] hist) as [h|e] eqn:Hr; simpl; [|eauto].
    destruct (rewrap_labels _ _ _ Hi Hk Hr) as [Hkh Hlh].
    rewrite (df_close_rewrapped s h _ Hkh Hlh). simpl. eauto.
Qed.

(** C2, at the failing input.  Fetched in a batch with META, AAPL has its
    Close values in the tables that [get_data] returns.  Fetched alone, with
    the provider answering without the grouping level, the adjustment of
    lines 48 to 52 is skipped, because the index of the answer is a
    [DatetimeIndex]; the Close projection is then a column, line 62 raises
    [AttributeError], and [get_data] returns no table at all.  With an index
    of another kind the adjustment runs, groups the columns under pairs
    (symbol, field), and line 59 raises [KeyError]. *)
Theorem get_data_single_instrument_not_rewrapped :
  let batch := boot Sample.now0 (Sample.answers Sample.hist2) in
  let alone := boot Sample.now0 (Sample.answers Sample.flat1) in
  let other :=
    boot Sample.now0
      (Sample.answers (mk_df (mk_axis Index (labels (index Sample.flat1)) [Some "Date"])
                             (columns Sample.flat1) (data Sample.flat1))) in
  fst (get_data 30 Sample.two batch) = Ok (RTuple (Some Sample.hist2) (Some Sample.close2)) /\
  at_labels Sample.close2 (Str "apple") (Sample.midnight 739922) = Some (Num 26980) /\
  at_labels Sample.flat1 (Sample.midnight 739922) (Str "Close") = Some (Num 26980) /\
  fst (get_data 30 Sample.one alone) = Ok (RTuple None None) /\
  page (snd (get_data 30 Sample.one alone))
  = [st_error (FetchException AttributeError); st_error Traceback] /\
  fst (get_data 30 Sample.one other) = Ok (RTuple None None) /\
  page (snd (get_data 30 Sample.one other))
  = [st_error (FetchException KeyError); st_error Traceback].
Proof. vm_compute. repeat split. Qed.

(** * Further properties of the code *)

(** ** What a call of [get_data] does, whatever the clock *)

(** The body either fails before the download, on the window, or sends its
    request and continues as [outcome] says. *)
Lemma get_data_body_cases days tks w :
  get_data_body days tks w
  = (Ok (RTuple None None),
     written [st_error (FetchException OverflowError); st_error Traceback] w)
  \/
  get_data_body days tks w
  = (Ok (snd (outcome tks (provider w (window_request days tks (clock w))))),
     written (fst (outcome tks (provider w (window_request days tks (clock w)))))
             (sent (window_request days tks (clock w)) w)).
Proof.
  destruct (Z_le_gt_dec (Z.abs (days - 1)) 999999999) as [Hd|Hd].
  - destruct (valid (days_before (days - 1) (clock w))) eqn:Hv.
    + right. by apply get_data_body_run.
    + left. by apply get_data_body_overflow.
  - left. unfold get_data_body, try_except, bind, datetime_now, lift, timedelta.
    apply Z.gt_lt, Z.leb_gt in Hd. rewrite Hd. simpl.
    unfold emit, ret. simpl. by rewrite written_written.
Qed.

Lemma get_data_miss_cases days tks w :
  cache w !! (days, tks) = None ->
  get_data days tks w
  = (Ok (RTuple None None),
     memoized (days, tks)
       (mk_entry [st_error (FetchException OverflowError); st_error Traceback]
                 (RTuple None None))
       (written [st_error (FetchException OverflowError); st_error Traceback] w))
  \/
  get_data days tks w
  = (Ok (snd (outcome tks (provider w (window_request days tks (clock w))))),
     memoized (days, tks)
       (mk_entry (fst (outcome tks (provider w (window_request days tks (clock w)))))
                 (snd (outcome tks (provider w (window_request days tks (clock w))))))
       (written (fst (outcome tks (provider w (window_request days tks (clock w)))))
                (sent (window_request days tks (clock w)) w))).
Proof.
  intros Hc. unfold get_data. rewrite Hc.
  destruct (get_data_body_cases days tks
              (mk_world (clock w) (provider w) [] (requests w) (cache w))) as [Hb|Hb];
    rewrite Hb; [left|right]; reflexivity.
Qed.

(** The adjustment of lines 48 to 52 either leaves the table alone or groups
    its columns under nested pairs. *)
Lemma rewrap_cases tkr_list hist h :
  rewrap tkr_list hist = Ok h ->
  h = hist \/
  (kind (columns h) = MultiIndex /\
   exists s, Forall (fun l => exists c, l = Tup (Tup (Str s) c) (Str s)) (labels (columns h))).
Proof.
  intros Hr.
  destruct (decide (kind (index hist) = DatetimeIndex)) as [Hi|Hi].
  { left. unfold rewrap, is_kind in Hr. rewrite (bool_decide_eq_true_2 _ Hi) in Hr.
    rewrite andb_false_r in Hr. congruence. }
  destruct (decide (kind (columns hist) = MultiIndex)) as [Hc|Hc].
  { left. rewrite rewrap_grouped in Hr by done. congruence. }
  destruct tkr_list as [|s [|s' l]].
  - left. unfold rewrap in Hr. simpl in Hr. congruence.
  - right. destruct (rewrap_labels s hist h Hi Hc Hr) as [Hk Hl]. eauto.
  - left. unfold rewrap in Hr. simpl in Hr. congruence.
Qed.

(** When lines 47 to 64 succeed, the table is the answer itself: an adjusted
    table never gets past line 59. *)
Lemma shaped_answer tks resp h m :
  shaped tks resp = Ok (h, m) -> h = resp /\ df_close resp tks = Ok m.
Proof.
  unfold shaped. destruct (rewrap _ resp) as [h'|e] eqn:Hr; [|done]. simpl.
  destruct (df_close h' tks) as [m'|e] eqn:Hd; [|done]. simpl. intros [= -> ->].
  destruct (rewrap_cases _ _ _ Hr) as [->|[Hk [s Hl]]]; [done|].
  rewrite (df_close_rewrapped s h tks Hk Hl) in Hd. done.
Qed.

(** X1.  Whenever a call of [get_data] that is not answered from the cache
    returns a table, this table is the answer of the provider as it came, not
    empty; the second component is the Close matrix of lines 56 to 64 of that
    very table; nothing was written to the page; and exactly one request was
    sent, the one for the window.  In particular the adjustment of lines 48
    to 52 never shows in a returned table. *)
Theorem get_data_returns_the_answer days tks w h d :
  cache w !! (days, tks) = None ->
  fst (get_data days tks w) = Ok (RTuple (Some h) d) ->
  provider w (window_request days tks (clock w)) = Ok h /\
  empty h = false /\
  (exists m, d = Some m /\ df_close h tks = Ok m) /\
  page (snd (get_data days tks w)) = page w /\
  requests (snd (get_data days tks w)) = requests w ++ [window_request days tks (clock w)].
Proof.
  intros Hc Hr. destruct (get_data_miss_cases days tks w Hc) as [Hg|Hg];
    rewrite Hg in Hr |- *; simpl in Hr; [done|].
  simpl. unfold outcome in *.
  destruct (provider w (window_request days tks (clock w))) as [resp|e]; [|done].
  destruct (empty resp) eqn:He; [done|].
  destruct (shaped tks resp) as [[h' m]|e] eqn:Hs; [|done].
  simpl in Hr. injection Hr as -> <-.
  destruct (shaped_answer _ _ _ _ Hs) as [-> Hm].
  split; [done|]. split; [done|]. split; [by exists m|].
  split; [simpl; by rewrite app_nil_r|done].
Qed.

Lemma get_data_returns_the_answer_witness :
  let w := boot Sample.now0 (Sample.answers Sample.hist2) in
  cache w !! (30, Sample.two) = None /\
  fst (get_data 30 Sample.two w) = Ok (RTuple (Some Sample.hist2) (Some Sample.close2)) /\
  provider w (window_request 30 Sample.two (clock w)) = Ok Sample.hist2 /\
  empty Sample.hist2 = false /\
  (exists m, Some Sample.close2 = Some m /\ df_close Sample.hist2 Sample.two = Ok m) /\
  page (snd (get_data 30 Sample.two w)) = page w /\
  requests (snd (get_data 30 Sample.two w))
  = requests w ++ [window_request 30 Sample.two (clock w)].
Proof.
  intros w.
  assert (cache w !! (30, Sample.two) = None) as H1 by reflexivity.
  assert (fst (get_data 30 Sample.two w)
          = Ok (RTuple (Some Sample.hist2) (Some Sample.close2))) as H2 by reflexivity.
  split; [exact H1|]. split; [exact H2|].
  exact (get_data_returns_the_answer 30 Sample.two w Sample.hist2 (Some Sample.close2) H1 H2).
Defined.

(** X2.  When the provider fails with an exception [e], for a day count
    between 1 and 100 at a clock from which the window is representable and
    with nothing memoized for the slider value: [get_data] has sent its one
    request, the main block shows the error of [get_data] with [e], the
    traceback and then the message that fetching or processing failed,
    draws nothing, and returns normally. *)
Theorem main_provider_failure ui w e :
  1 <= days ui <= 100 ->
  clock_ok w ->
  cache w !! (days ui, tickers) = None ->
  provider w (window_request (days ui) tickers (clock w)) = Raise e ->
  fst (main ui w) = Ok tt /\
  page (snd (main ui w))
  = page w ++ [st_error (FetchException e); st_error Traceback; st_error PipelineFailed] /\
  requests (snd (main ui w)) = requests w ++ [window_request (days ui) tickers (clock w)].
Proof.
  intros Hd Hclock Hc He.
  destruct (window_representable _ _ Hd Hclock) as [Ha Hv].
  unfold main, try_except, bind.
  rewrite get_data_miss by done. simpl. rewrite He. simpl.
  split; [done|]. split; [|done]. by rewrite <- !app_assoc.
Qed.

Lemma main_provider_failure_witness :
  let ui := mk_widgets 30 Candlestick [] "apple" in
  let w := boot Sample.now0 (failing (ProviderError "timeout")) in
  1 <= days ui <= 100 /\ clock_ok w /\ cache w !! (days ui, tickers) = None /\
  provider w (window_request (days ui) tickers (clock w)) = Raise (ProviderError "timeout") /\
  fst (main ui w) = Ok tt /\
  page (snd (main ui w))
  = page w ++ [st_error (FetchException (ProviderError "timeout")); st_error Traceback;
               st_error PipelineFailed] /\
  requests (snd (main ui w)) = requests w ++ [window_request (days ui) tickers (clock w)].
Proof.
  intros ui w.
  assert (1 <= days ui <= 100) as H1 by (simpl; lia).
  assert (clock_ok w) as H2 by (vm_compute; split; discriminate).
  assert (cache w !! (days ui, tickers) = None) as H3 by reflexivity.
  assert (provider w (window_request (days ui) tickers (clock w))
          = Raise (ProviderError "timeout")) as H4 by reflexivity.
  split; [exact H1|]. split; [exact H2|]. split; [exact H3|]. split; [exact H4|].
  exact (main_provider_failure ui w (ProviderError "timeout") H1 H2 H3 H4).
Defined.

(** ** Memoized results *)

(** One call of [get_data]: it returns, its arguments are then memoized with
    what it returned and wrote, it sent nothing or the request for the
    window, and nothing if the arguments were memoized before. *)
Lemma get_data_step days tks w :
  exists r e reqs,
    get_data days tks w
    = (Ok r, mk_world (clock w) (provider w) (page w ++ replayed e) (requests w ++ reqs)
                      (<[(days, tks) := e]> (cache w)))
    /\ returned e = r
    /\ (reqs = [] \/ reqs = [window_request days tks (clock w)])
    /\ (forall e0, cache w !! (days, tks) = Some e0 -> e = e0 /\ reqs = []).
Proof.
  destruct (cache w !! (days, tks)) as [e0|] eqn:Hc.
  - exists (returned e0), e0, []. rewrite (get_data_hit _ _ _ e0 Hc).
    unfold written. rewrite app_nil_r, (insert_id _ _ _ Hc).
    split; [done|]. split; [done|]. split; [by left|]. by intros ? [= ->].
  - destruct (get_data_miss_cases days tks w Hc) as [Hg|Hg]; rewrite Hg.
    + exists (RTuple None None),
        (mk_entry [st_error (FetchException OverflowError); st_error Traceback]
                  (RTuple None None)), [].
      unfold memoized, written. simpl. rewrite app_nil_r.
      split; [reflexivity|]. split; [done|]. split; [by left|done].
    + exists (snd (outcome tks (provider w (window_request days tks (clock w))))),
        (mk_entry (fst (outcome tks (provider w (window_request days tks (clock w)))))
                  (snd (outcome tks (provider w (window_request days tks (clock w)))))),
        [window_request days tks (clock w)].
      unfold memoized, written, sent. simpl.
      split; [reflexivity|]. split; [done|]. split; [by right|done].
Qed.

(** X3.  A call of [get_data] repeated with the same arguments, however much
    later and whatever the provider would answer by then, returns the value
    of the first call, writes again what the first call wrote, sends no
    request and leaves the cache as it is: a result once computed, a failure
    included, is never recomputed for these arguments. *)
Theorem get_data_again_same_result days tks w now prov :
  let first := get_data days tks w in
  let second := get_data days tks (later now prov (snd first)) in
  fst second = fst first /\
  requests (snd second) = requests (snd first) /\
  cache (snd second) = cache (snd first) /\
  exists evs, page (snd first) = page w ++ evs /\
              page (snd second) = page (snd first) ++ evs.
Proof.
  intros first second. unfold second, first.
  destruct (get_data_step days tks w) as (r & e & reqs & Hg & Hr & _ & _).
  rewrite Hg. simpl.
  rewrite (get_data_hit _ _ _ e) by (simpl; apply lookup_insert_eq).
  simpl. rewrite Hr. split; [done|]. split; [done|]. split; [done|]. by exists (replayed e).
Qed.

(** A failed fetch stays failed: the provider recovers, the error is shown
    again and nothing is requested. *)
Example failure_is_memoized :
  let w1 := snd (get_data 30 tickers (boot Sample.now0 (failing (ProviderError "timeout")))) in
  let w2 := later (Sample.now0 + 1) (Sample.answers Sample.hist2) w1 in
  fst (get_data 30 tickers w2) = Ok (RTuple None None) /\
  length (requests (snd (get_data 30 tickers w2))) = 1%nat /\
  page (snd (get_data 30 tickers w2))
  = [st_error (FetchException (ProviderError "timeout")); st_error Traceback;
     st_error (FetchException (ProviderError "timeout")); st_error Traceback].
Proof. vm_compute. repeat split. Qed.

(** ** One run of the main block *)

(** The two chart branches only write to the page. *)
Lemma multi_line_only_writes m sel w :
  exists r evs, multi_line m sel w = (r, written evs w).
Proof.
  unfold multi_line, bind, lift, emit. destruct sel as [|n sel]; [by eexists _, _|].
  destruct (loc_rows m (n :: sel)) as [dl|e]; simpl.
  - destruct (data_melt dl) as [long|e]; simpl.
    + destruct (st_altair_chart_cases line_fields long (line_chart long)
                  (written [st_write_closing dl] w)) as [-> | ->].
      * eexists _, _. by rewrite written_written.
      * by eexists _, _.
    + by eexists _, _.
  - exists (Raise e), []. by rewrite written_nil.
Qed.

Lemma candlestick_only_writes hist company w :
  exists r evs, candlestick hist company w = (r, written evs w).
Proof.
  unfold candlestick, bind, lift, emit.
  destruct (dict_getitem tickers company) as [sym|e]; simpl.
  - destruct (ohlc_data hist sym) as [o|e]; simpl.
    + destruct (empty o); [eexists _, _; by rewrite written_written|].
      destruct (st_altair_chart_cases candle_fields o (candle_chart o)
                  (written [st_write_candle company sym] w)) as [-> | ->].
      * eexists _, _. by rewrite written_written.
      * by eexists _, _.
    + by eexists _, _.
  - exists (Raise e), []. by rewrite written_nil.
Qed.

(** One run of the main block: it only adds to the page; it sends nothing or
    the one request of [get_data]; it leaves the slider value memoized; and
    it sends nothing when the slider value was memoized before. *)
Lemma main_step ui w :
  exists evs e reqs,
    snd (main ui w)
    = mk_world (clock w) (provider w) (page w ++ evs) (requests w ++ reqs)
               (<[(days ui, tickers) := e]> (cache w))
    /\ (reqs = [] \/ reqs = [window_request (days ui) tickers (clock w)])
    /\ (forall e0, cache w !! (days ui, tickers) = Some e0 -> e = e0 /\ reqs = []).
Proof.
  destruct (get_data_step (days ui) tickers w) as (r & e & reqs & Hg & _ & Hreqs & Hhit).
  assert (forall (res : res unit * world) evs,
            res = (fst res,
                   written evs (mk_world (clock w) (provider w) (page w ++ replayed e)
                                  (requests w ++ reqs)
                                  (<[(days ui, tickers) := e]> (cache w)))) ->
            exists evs', snd (try_except (fun _ => res)
                                (fun e =>
                                   emit (st_error (Unexpected e)) ;;;
                                   emit (st_error Traceback)) w)
                         = mk_world (clock w) (provider w) (page w ++ evs')
                                    (requests w ++ reqs)
                                    (<[(days ui, tickers) := e]> (cache w))) as Hfin.
  { intros [[[]|x] w'] evs Hres; simpl in Hres; injection Hres as ->;
      unfold try_except, bind, emit, written; simpl.
    - exists (replayed e ++ evs). by rewrite app_assoc.
    - exists (replayed e ++ evs ++ [st_error (Unexpected x); st_error Traceback]).
      by rewrite <- !app_assoc. }
  assert (exists res evs,
            (r0 <- get_data (days ui) tickers ;;
             p <- lift (unpack2 r0) ;;
             match p with
             | (Some hist_data, Some df_close_processed) =>
                 emit (st_write_days (days ui)) ;;;
                 match chart ui with
                 | MultiLine => multi_line df_close_processed (companies ui)
                 | Candlestick => candlestick hist_data (selected_company ui)
                 end
             | _ => emit (st_error PipelineFailed)
             end) w
            = (res, written evs (mk_world (clock w) (provider w) (page w ++ replayed e)
                                   (requests w ++ reqs)
                                   (<[(days ui, tickers) := e]> (cache w)))))
    as (res & evs & Hbody).
  { unfold bind at 1. rewrite Hg. unfold bind, lift, emit.
    destruct (unpack2 r) as [[[h|] [d|]]|x]; simpl;
      try (by eexists _, [_]); try (by exists (Raise x), []; rewrite written_nil).
    destruct (chart ui).
    - edestruct multi_line_only_writes as (r1 & evs1 & ->).
      eexists _, _. by rewrite written_written.
    - edestruct candlestick_only_writes as (r1 & evs1 & ->).
      eexists _, _. by rewrite written_written. }
  destruct (Hfin (res, written evs _) evs eq_refl) as [evs' Hw].
  exists evs', e, reqs. split; [|done].
  rewrite <- Hw. unfold main, try_except. by rewrite Hbody.
Qed.

(** X4.  After a run of the main block, a further run with the slider at the
    same value sends no request, whatever the chart type and the selection,
    however much later and whatever the provider would answer by then:
    changing only the chart or the companies never fetches again. *)
Theorem main_again_no_request ui w now prov chart' companies' company' :
  let w1 := snd (main ui w) in
  let ui' := mk_widgets (days ui) chart' companies' company' in
  requests (snd (main ui' (later now prov w1))) = requests w1.
Proof.
  intros w1 ui'. unfold w1.
  destruct (main_step ui w) as (evs & e & reqs & Hw & _ & _). rewrite Hw.
  destruct (main_step ui' (later now prov
              (mk_world (clock w) (provider w) (page w ++ evs) (requests w ++ reqs)
                        (<[(days ui, tickers) := e]> (cache w)))))
    as (evs' & e' & reqs' & Hw' & _ & Hhit).
  rewrite Hw'. simpl.
  destruct (Hhit e) as [_ ->]; [simpl; apply lookup_insert_eq|]. by rewrite app_nil_r.
Qed.

(** X5.  A run of the main block only adds to the page, and it sends at most
    one request to the provider: none, or the one request for the six symbols
    of the mapping, in the order of the mapping, over the window that ends at
    the clock. *)
Theorem main_at_most_one_request ui w :
  (exists evs, page (snd (main ui w)) = page w ++ evs) /\
  (requests (snd (main ui w)) = requests w \/
   requests (snd (main ui w))
   = requests w ++ [mk_request ["AAPL"; "META"; "GOOGL"; "MSFT"; "NFLX"; "AMZN"]
                               (days_before (days ui - 1) (clock w)) (clock w)]).
Proof.
  destruct (main_step ui w) as (evs & e & reqs & Hw & [->| ->] & _); rewrite Hw; simpl.
  - split; [by exists evs|]. left. by rewrite app_nil_r.
  - split; [by exists evs|]. by right.
Qed.

(** ** From the provider's table to the Close matrix *)

Lemma increasing_from_NoDup l : forall t,
  increasing_from t l ->
  Forall (fun v => exists t', v = Ts t' /\ t < t') l /\ NoDup l.
Proof.
  induction l as [|v l IH]; intros t Hinc; [split; constructor|].
  destruct v as [|t'| | |]; simpl in Hinc; try done.
  destruct Hinc as [Hlt Hinc]. destruct (IH t' Hinc) as [Hall Hnd]. split.
  - constructor; [by exists t'|].
    eapply Forall_impl; [exact Hall|]. simpl. intros v (t'' & -> & Hlt'). exists t''.
    split; [done|lia].
  - apply NoDup_cons. split; [|done]. intros Hin.
    rewrite Forall_forall in Hall. destruct (Hall _ Hin) as (t'' & [= <-] & Hlt'). lia.
Qed.

(** Sorted and deduplicated dates are pairwise distinct. *)
Lemma increasing_NoDup l : increasing l -> NoDup l.
Proof.
  destruct l as [|v l]; [constructor|].
  destruct v as [|t| | |]; simpl; try done. intros Hinc.
  destruct (increasing_from_NoDup l t Hinc) as [Hall Hnd].
  apply NoDup_cons. split; [|done]. intros Hin.
  rewrite Forall_forall in Hall. destruct (Hall _ Hin) as (t' & [= <-] & Hlt). lia.
Qed.

(** The row label that line 62 gives a Close column of an OHLC table is the
    display name of the symbol of the column. *)
Lemma close_row_label tks hist j :
  NoDup (Dict.values tks) -> ohlc_table (Dict.values tks) hist ->
  j ∈ close_columns hist ->
  exists n s, nth j (labels (columns hist)) NaN = Tup (Str "Close") (Str s) /\
              (n, s) ∈ tks /\
              map_label (Dict.invert tks) (level1 (nth j (labels (columns hist)) NaN)) = Str n.
Proof.
  intros Hvals H Hj.
  destruct (close_column_label _ _ _ H Hj) as (_ & s & Hs & Hin).
  destruct (dict_values_elem _ _ Hin) as [n Hn].
  exists n, s. split; [done|]. split; [done|].
  rewrite Hs. simpl. by rewrite (dict_invert_get _ n s).
Qed.

Lemma close_row_labels_NoDup tks hist :
  NoDup (Dict.keys tks) -> NoDup (Dict.values tks) -> ohlc_table (Dict.values tks) hist ->
  NoDup (List.map (map_label (Dict.invert tks)) (close_symbols hist)).
Proof.
  intros Hkeys Hvals H. rewrite close_symbols_map, List.map_map.
  apply NoDup_fmap_2_strong; [|apply positions_NoDup].
  intros x y Hx Hy Hxy.
  destruct (close_column_label _ _ _ H Hx) as (Hxlt & _).
  destruct (close_column_label _ _ _ H Hy) as (Hylt & _).
  destruct (close_row_label _ _ _ Hvals H Hx) as (n & s & Hsx & Hnx & Hfx).
  destruct (close_row_label _ _ _ Hvals H Hy) as (n' & s' & Hsy & Hny & Hfy).
  rewrite Hfx, Hfy in Hxy. injection Hxy as <-.
  assert (s' = s) as -> by (apply (dict_get_NoDup _ _ _ Hkeys) in Hnx, Hny; congruence).
  apply (proj1 (List.NoDup_nth (labels (columns hist)) NaN)
           (proj1 (NoDup_ListNoDup _) (ohlc_columns_nodup _ _ H))); [done..|congruence].
Qed.

(** Every instrument of the mapping labels a row. *)
Lemma close_row_of_every_name tks hist n s :
  NoDup (Dict.values tks) -> ohlc_table (Dict.values tks) hist -> (n, s) ∈ tks ->
  Str n ∈ List.map (map_label (Dict.invert tks)) (close_symbols hist).
Proof.
  intros Hvals H Hin.
  assert (s ∈ Dict.values tks) as Hs.
  { unfold Dict.values. apply list_elem_of_In, in_map_iff.
    exists (n, s). split; [done|by apply list_elem_of_In]. }
  assert (Tup (Str "Close") (Str s) ∈ labels (columns hist)) as Hc.
  { apply (ohlc_columns_fields _ _ H); [|done].
    unfold FIELDS. do 3 right. left. }
  destruct (position_elem _ _ Hc) as (jc & _ & Hlt & Hnth).
  assert (jc ∈ close_columns hist) as Hjc.
  { apply positions_elem; [done|]. rewrite Hnth. by rewrite level0_close_eqb. }
  rewrite close_symbols_map, List.map_map.
  apply list_elem_of_In, in_map_iff. exists jc. split; [|by apply list_elem_of_In].
  rewrite Hnth. simpl. by rewrite (dict_invert_get _ n s).
Qed.

(** Every row label is a display name of the mapping. *)
Lemma close_rows_are_names tks hist l :
  NoDup (Dict.values tks) -> ohlc_table (Dict.values tks) hist ->
  l ∈ List.map (map_label (Dict.invert tks)) (close_symbols hist) ->
  l ∈ List.map Str (Dict.keys tks).
Proof.
  intros Hvals H Hl. rewrite close_symbols_map, List.map_map in Hl.
  apply list_elem_of_In, in_map_iff in Hl as (j & <- & Hj). apply list_elem_of_In in Hj.
  destruct (close_row_label _ _ _ Hvals H Hj) as (n & s & _ & Hn & ->).
  apply list_elem_of_In, in_map. unfold Dict.keys. apply in_map_iff.
  exists (n, s). split; [done|by apply list_elem_of_In].
Qed.

(** The matrix that lines 56 to 64 compute from an OHLC table is a Close
    matrix with a row for every instrument. *)
Lemma df_close_well_formed tks hist :
  NoDup (Dict.keys tks) -> NoDup (Dict.values tks) ->
  ohlc_table (Dict.values tks) hist ->
  labels (index hist) <> [] ->
  Str "value" ∉ List.map Str (Dict.keys tks) ->
  date_label hist ∉ List.map Str (Dict.keys tks) ->
  date_label hist <> Str "value" -> date_label hist <> Str "Name" ->
  let m := mk_df (mk_axis Index (List.map (map_label (Dict.invert tks)) (close_symbols hist))
                          [Some "Name"])
                 (index hist)
                 (List.map (fun j => column j (take_columns (close_columns hist) (data hist)))
                           (seq 0 (length (close_columns hist)))) in
  close_matrix m /\ Forall (fun n => Str n ∈ labels (index m)) (Dict.keys tks).
Proof.
  intros Hkeys Hvals H Hrows Hv Hd Hdv Hdn m. split.
  - constructor; simpl.
    + reflexivity.
    + by apply close_row_labels_NoDup.
    + intros Hin. by apply Hv, (close_rows_are_names tks hist).
    + intros Hin. by apply Hd, (close_rows_are_names tks hist).
    + exact Hdv.
    + exact Hdn.
    + apply increasing_NoDup, (ohlc_index_sorted _ _ H).
    + exact Hrows.
    + destruct (ohlc_rectangular _ _ H) as [Hlen _]. split; simpl.
      * unfold close_symbols, take. by rewrite !length_map, length_seq.
      * apply Forall_forall. intros row Hrow.
        apply list_elem_of_In, in_map_iff in Hrow as (j & <- & _).
        unfold column, take_columns, ncols. simpl. by rewrite !length_map.
  - apply Forall_forall. intros n Hn. simpl.
    unfold Dict.keys in Hn. apply list_elem_of_In, in_map_iff in Hn as ([n' s] & <- & Hin).
    apply (close_row_of_every_name tks hist n' s); [done..|by apply list_elem_of_In].
Qed.

Lemma df_close_ohlc tks hist :
  tks <> [] -> ohlc_table (Dict.values tks) hist ->
  df_close hist tks
  = Ok (mk_df (mk_axis Index (List.map (map_label (Dict.invert tks)) (close_symbols hist))
                       [Some "Name"])
              (index hist)
              (List.map (fun j => column j (take_columns (close_columns hist) (data hist)))
                        (seq 0 (length (close_columns hist))))).
Proof.
  intros Hne H.
  assert (labels (columns hist) <> []) as Hcols.
  { destruct tks as [|[n s] tks']; [done|].
    assert (Tup (Str "Close") (Str s) ∈ labels (columns hist)) as Hc.
    { apply (ohlc_columns_fields _ _ H); [unfold FIELDS; do 3 right; left|simpl; left]. }
    intros Hnil. rewrite Hnil in Hc. by apply elem_of_nil in Hc. }
  destruct (ohlc_table_close _ _ H Hcols) as [Hjs Hsym].
  apply df_close_grouped; [apply (ohlc_columns_kind _ _ H)|done|].
  eapply Forall_impl; [apply Hsym|]. simpl. intros c (s & -> & _ & Hs). congruence.
Qed.

(** X6.  For an OHLC table with at least one date, for the symbols of a
    non-empty mapping with pairwise distinct display names and pairwise
    distinct symbols, none of the names being "value" or the label of the
    date column, and this label being neither "value" nor "Name": lines 56 to
    64 compute a Close matrix in the sense of the line-chart branch, with
    exactly one row per instrument of the mapping, so that every selection of
    instruments of the mapping can be taken from it. *)
Theorem df_close_is_close_matrix tks hist :
  tks <> [] ->
  NoDup (Dict.keys tks) ->
  NoDup (Dict.values tks) ->
  ohlc_table (Dict.values tks) hist ->
  labels (index hist) <> [] ->
  Str "value" ∉ List.map Str (Dict.keys tks) ->
  date_label hist ∉ List.map Str (Dict.keys tks) ->
  date_label hist <> Str "value" ->
  date_label hist <> Str "Name" ->
  exists m,
    df_close hist tks = Ok m /\
    close_matrix m /\
    Forall (fun n => Str n ∈ labels (index m)) (Dict.keys tks) /\
    length (labels (index m)) = length tks.
Proof.
  intros Hne Hkeys Hvals H Hrows Hv Hd Hdv Hdn.
  rewrite (df_close_ohlc tks hist Hne H).
  destruct (df_close_well_formed tks hist Hkeys Hvals H Hrows Hv Hd Hdv Hdn) as [Hcm Hall].
  eexists. split; [reflexivity|]. split; [exact Hcm|]. split; [exact Hall|].
  simpl. transitivity (length (List.map Str (Dict.keys tks)));
    [|unfold Dict.keys; by rewrite !length_map].
  apply Permutation_length, NoDup_Permutation.
  - by apply close_row_labels_NoDup.
  - apply NoDup_fmap_2; [|done]. intros a b. congruence.
  - intros l. split; [by apply close_rows_are_names|].
    intros Hl. apply list_elem_of_In, in_map_iff in Hl as (n & <- & Hn).
    rewrite Forall_forall in Hall. by apply Hall, list_elem_of_In.
Qed.

Lemma df_close_is_close_matrix_witness :
  Sample.two <> [] /\ NoDup (Dict.keys Sample.two) /\ NoDup (Dict.values Sample.two) /\
  ohlc_table (Dict.values Sample.two) Sample.hist2 /\
  labels (index Sample.hist2) <> [] /\
  (Str "value" ∉ List.map Str (Dict.keys Sample.two)) /\
  (date_label Sample.hist2 ∉ List.map Str (Dict.keys Sample.two)) /\
  date_label Sample.hist2 <> Str "value" /\
  date_label Sample.hist2 <> Str "Name" /\
  exists m,
    df_close Sample.hist2 Sample.two = Ok m /\
    close_matrix m /\
    Forall (fun n => Str n ∈ labels (index m)) (Dict.keys Sample.two) /\
    length (labels (index m)) = length Sample.two.
Proof.
  assert (Sample.two <> []) as H1 by discriminate.
  assert (NoDup (Dict.keys Sample.two)) as H2
    by (apply (bool_decide_unpack _); vm_compute; exact I).
  assert (NoDup (Dict.values Sample.two)) as H3
    by (apply (bool_decide_unpack _); vm_compute; exact I).
  pose proof sample_hist2_ohlc_table as H4.
  assert (labels (index Sample.hist2) <> []) as H5 by discriminate.
  assert (Str "value" ∉ List.map Str (Dict.keys Sample.two)) as H6
    by (apply (bool_decide_unpack _); vm_compute; exact I).
  assert (date_label Sample.hist2 ∉ List.map Str (Dict.keys Sample.two)) as H7
    by (apply (bool_decide_unpack _); vm_compute; exact I).
  assert (date_label Sample.hist2 <> Str "value") as H8 by discriminate.
  assert (date_label Sample.hist2 <> Str "Name") as H9 by discriminate.
  repeat (split; [assumption|]).
  exact (df_close_is_close_matrix Sample.two Sample.hist2 H1 H2 H3 H4 H5 H6 H7 H8 H9).
Defined.

(** ** A whole run on a well-formed answer *)

Lemma ohlc_table_not_empty tks hist :
  tks <> [] -> ohlc_table (Dict.values tks) hist -> labels (index hist) <> [] ->
  empty hist = false.
Proof.
  intros Hne H Hrows. unfold empty.
  destruct (labels (index hist)) as [|d ds]; [done|].
  destruct (labels (columns hist)) as [|c cs] eqn:Hc; [|done].
  destruct tks as [|[n s] tks']; [done|].
  assert (Tup (Str "Close") (Str s) ∈ labels (columns hist)) as Hin.
  { apply (ohlc_columns_fields _ _ H); [unfold FIELDS; do 3 right; left|simpl; left]. }
  rewrite Hc in Hin. by apply elem_of_nil in Hin.
Qed.

(** A call of [get_data] that the provider answers with an OHLC table with a
    date returns this table and its Close matrix and writes nothing. *)
Lemma get_data_fetches days tks w resp :
  1 <= days <= 100 -> clock_ok w -> cache w !! (days, tks) = None ->
  provider w (window_request days tks (clock w)) = Ok resp ->
  tks <> [] -> ohlc_table (Dict.values tks) resp -> labels (index resp) <> [] ->
  exists m w1,
    df_close resp tks = Ok m /\
    get_data days tks w = (Ok (RTuple (Some resp) (Some m)), w1) /\
    page w1 = page w /\ clock w1 = clock w /\ provider w1 = provider w /\
    requests w1 = requests w ++ [window_request days tks (clock w)].
Proof.
  intros Hd Hclock Hc Hp Hne H Hrows.
  destruct (window_representable _ _ Hd Hclock) as [Ha Hv].
  rewrite get_data_miss by done. simpl. rewrite Hp. unfold outcome.
  rewrite (ohlc_table_not_empty _ _ Hne H Hrows).
  rewrite (shaped_ohlc_table _ _ _ H (ohlc_table_not_empty _ _ Hne H Hrows)). simpl.
  eexists _, _. split; [by apply df_close_ohlc|]. split; [reflexivity|].
  simpl. by rewrite app_nil_r.
Qed.

Lemma dict_get_key d n :
  n ∈ Dict.keys d -> exists s, Dict.get d n = Some s /\ s ∈ Dict.values d.
Proof.
  induction d as [|[k v] d IH]; simpl; intros Hn; [by apply elem_of_nil in Hn|].
  case_decide as Hk.
  - exists v. split; [done|left].
  - apply elem_of_cons in Hn as [->|Hn]; [done|].
    destruct (IH Hn) as (s & Hs & Hin). exists s. split; [done|by right].
Qed.

(** X7.  A run of the main block with the line chart chosen and a non-empty
    selection of companies of the mapping, for a slider value between 1 and
    100 that is not memoized, at a clock from which the window is
    representable, when the provider answers with an OHLC table for the six
    symbols that has a date and whose date index is named "Date": the run
    returns normally and writes the heading, the selected rows of the Close
    matrix of the answer, and the line chart of their long form, with the
    columns Date, Name and Stock Prices(USD), and nothing else. *)
Theorem main_draws_line_chart ui w resp :
  1 <= days ui <= 100 ->
  clock_ok w ->
  cache w !! (days ui, tickers) = None ->
  provider w (window_request (days ui) tickers (clock w)) = Ok resp ->
  ohlc_table (Dict.values tickers) resp ->
  labels (index resp) <> [] ->
  name (index resp) = Some "Date" ->
  chart ui = MultiLine ->
  companies ui <> [] ->
  Forall (fun n => n ∈ company_names) (companies ui) ->
  exists m data_lines long,
    df_close resp tickers = Ok m /\
    loc_rows m (companies ui) = Ok data_lines /\
    data long = long_form m (companies ui) /\
    labels (columns long) = [Str "Date"; Str "Name"; Str "Stock Prices(USD)"] /\
    fst (main ui w) = Ok tt /\
    page (snd (main ui w))
    = page w ++ [st_write_days (days ui); st_write_closing data_lines; line_chart long].
Proof.
  intros Hd Hclock Hc Hp H Hrows Hname Hchart Hsel Hin.
  assert (tickers <> []) as Hne by discriminate.
  destruct (get_data_fetches _ _ _ _ Hd Hclock Hc Hp Hne H Hrows)
    as (m & w1 & Hm & Hg & Hpage & _).
  pose proof Hm as Hm'. rewrite (df_close_ohlc _ _ Hne H) in Hm'. injection Hm' as Hm'.
  destruct (df_close_well_formed tickers resp) as [Hcm Hall];
    try done; unfold date_label; rewrite ?Hname;
    try discriminate; try (apply (bool_decide_unpack _); vm_compute; exact I).
  rewrite Hm' in Hcm, Hall.
  assert (Forall (fun n => Str n ∈ labels (index m)) (companies ui)) as Hsel'.
  { rewrite Forall_forall in Hall, Hin |- *. intros n Hn. apply Hall, Hin, Hn. }
  exists m,
    (mk_df (mk_axis (kind (index m)) (List.map Str (companies ui)) (names (index m)))
           (columns m) (List.map (row_of m) (companies ui))),
    (mk_df (mk_axis RangeIndex (range (length (companies ui) * ncols m)) [None])
           (mk_axis Index [Str "Date"; Str "Name"; Str "Stock Prices(USD)"] [None])
           (long_form m (companies ui))).
  split; [done|].
  split; [apply loc_rows_selected; [apply (cm_index_nodup _ Hcm)|done]|].
  split; [reflexivity|]. split; [reflexivity|]. split; [apply main_returns|].
  unfold main, try_except, bind at 1. rewrite Hg. unfold bind, lift, emit. simpl.
  rewrite Hchart. unfold multi_line, bind, lift, emit.
  destruct (companies ui) as [|n sel] eqn:Es; [done|]. rewrite <- Es in *.
  rewrite loc_rows_selected by (done || apply (cm_index_nodup _ Hcm)).
  rewrite data_melt_long by done. simpl. rewrite Hpage. by rewrite <- !app_assoc.
Qed.

Lemma sample_hist6_ohlc_table : ohlc_table (Dict.values tickers) Sample6.hist6.
Proof.
  constructor.
  - apply (bool_decide_unpack _). vm_compute. exact I.
  - reflexivity.
  - apply (bool_decide_unpack _). vm_compute. exact I.
  - repeat constructor; eexists _, _; (split; [reflexivity|]);
      apply (bool_decide_unpack _); vm_compute; exact I.
  - intros f s Hf Hs. unfold FIELDS in Hf.
    repeat (apply elem_of_cons in Hf as [->|Hf]); try (by apply elem_of_nil in Hf);
      vm_compute in Hs;
      repeat (apply elem_of_cons in Hs as [->|Hs]); try (by apply elem_of_nil in Hs);
      apply (bool_decide_unpack _); vm_compute; exact I.
  - reflexivity.
  - intros f Hf. unfold FIELDS in Hf.
    repeat (apply elem_of_cons in Hf as [->|Hf]); try (by apply elem_of_nil in Hf);
      discriminate.
  - vm_compute. repeat split.
  - split; [reflexivity|]. repeat constructor.
Qed.

Lemma main_draws_line_chart_witness :
  let ui := Sample6.line_run in
  let w := boot Sample.now0 (Sample.answers Sample6.hist6) in
  1 <= days ui <= 100 /\ clock_ok w /\ cache w !! (days ui, tickers) = None /\
  provider w (window_request (days ui) tickers (clock w)) = Ok Sample6.hist6 /\
  ohlc_table (Dict.values tickers) Sample6.hist6 /\
  labels (index Sample6.hist6) <> [] /\
  name (index Sample6.hist6) = Some "Date" /\
  chart ui = MultiLine /\ companies ui <> [] /\
  Forall (fun n => n ∈ company_names) (companies ui) /\
  exists m data_lines long,
    df_close Sample6.hist6 tickers = Ok m /\
    loc_rows m (companies ui) = Ok data_lines /\
    data long = long_form m (companies ui) /\
    labels (columns long) = [Str "Date"; Str "Name"; Str "Stock Prices(USD)"] /\
    fst (main ui w) = Ok tt /\
    page (snd (main ui w))
    = page w ++ [st_write_days (days ui); st_write_closing data_lines; line_chart long].
Proof.
  intros ui w.
  assert (1 <= days ui <= 100) as H1 by (simpl; lia).
  assert (clock_ok w) as H2 by (vm_compute; split; discriminate).
  assert (cache w !! (days ui, tickers) = None) as H3 by reflexivity.
  assert (provider w (window_request (days ui) tickers (clock w)) = Ok Sample6.hist6) as H4
    by reflexivity.
  pose proof sample_hist6_ohlc_table as H5.
  assert (labels (index Sample6.hist6) <> []) as H6 by discriminate.
  assert (name (index Sample6.hist6) = Some "Date") as H7 by reflexivity.
  assert (chart ui = MultiLine) as H8 by reflexivity.
  assert (companies ui <> []) as H9 by discriminate.
  assert (Forall (fun n => n ∈ company_names) (companies ui)) as H10
    by (repeat constructor; apply (bool_decide_unpack _); vm_compute; exact I).
  repeat (split; [assumption|]).
  exact (main_draws_line_chart ui w Sample6.hist6 H1 H2 H3 H4 H5 H6 H7 H8 H9 H10).
Defined.

Lemma date_label_Date hist :
  date_label hist = Str "Date" <-> name (index hist) = Some "Date".
Proof.
  unfold date_label. destruct (name (index hist)) as [n|]; split; congruence.
Qed.

(** X8.  A run of the main block with the candlestick chart chosen and a
    company of the mapping selected, for a slider value between 1 and 100
    that is not memoized, at a clock from which the window is representable,
    when the provider answers with an OHLC table for the six symbols that has
    a date: the run returns normally and writes the heading and the heading
    of the company with its symbol; then, when the date index of the answer
    is named "Date", the candlestick chart of the table with the columns
    Date, Open, High, Low, Close and one row per date of the answer; and
    under any other name of the index, or none, the report of the
    [ValueError] of line 186 with its traceback instead of a chart. *)
Theorem main_draws_candlestick ui w resp :
  1 <= days ui <= 100 ->
  clock_ok w ->
  cache w !! (days ui, tickers) = None ->
  provider w (window_request (days ui) tickers (clock w)) = Ok resp ->
  ohlc_table (Dict.values tickers) resp ->
  labels (index resp) <> [] ->
  chart ui = Candlestick ->
  selected_company ui ∈ company_names ->
  exists sym o,
    Dict.get tickers (selected_company ui) = Some sym /\
    ohlc_data resp sym = Ok o /\
    labels (columns o) = [date_label resp; Str "Open"; Str "High"; Str "Low"; Str "Close"] /\
    data o = candles resp sym /\
    fst (main ui w) = Ok tt /\
    page (snd (main ui w))
    = page w ++ [st_write_days (days ui); st_write_candle (selected_company ui) sym]
             ++ (if decide (name (index resp) = Some "Date")
                 then [candle_chart o]
                 else [st_error (Unexpected ValueError); st_error Traceback]).
Proof.
  intros Hd Hclock Hc Hp H Hrows Hchart Hcompany.
  assert (tickers <> []) as Hne by discriminate.
  destruct (get_data_fetches _ _ _ _ Hd Hclock Hc Hp Hne H Hrows)
    as (m & w1 & Hm & Hg & Hpage & _).
  destruct (dict_get_key tickers _ Hcompany) as (sym & Hget & Hsym).
  destruct (candlestick_table _ resp (selected_company ui) sym
              (written [st_write_days (days ui)] w1) H Hsym Hget)
    as (o & Ho & Hcols & Hdata & Hrun).
  rewrite (decide_False (P := labels (index resp) = [])) in Hrun by done.
  exists sym, o. split; [done|]. split; [done|]. split; [done|]. split; [done|].
  split; [apply main_returns|].
  unfold main, try_except, bind at 1. rewrite Hg. unfold bind at 1, lift, unpack2.
  unfold bind at 1, emit at 1. rewrite Hchart, Hrun.
  destruct (decide (date_label resp = Str "Date")) as [Hdl|Hdl];
    destruct (decide (name (index resp) = Some "Date")) as [Hn|Hn];
    try (by apply date_label_Date in Hdl); try (by apply date_label_Date in Hn).
  - simpl. rewrite Hpage. by rewrite <- !app_assoc.
  - unfold bind, emit. simpl. rewrite Hpage. by rewrite <- !app_assoc.
Qed.

Lemma main_draws_candlestick_witness :
  let ui := Sample6.candle_run in
  let w := boot Sample.now0 (Sample.answers Sample6.hist6) in
  1 <= days ui <= 100 /\ clock_ok w /\ cache w !! (days ui, tickers) = None /\
  provider w (window_request (days ui) tickers (clock w)) = Ok Sample6.hist6 /\
  ohlc_table (Dict.values tickers) Sample6.hist6 /\
  labels (index Sample6.hist6) <> [] /\
  chart ui = Candlestick /\ selected_company ui ∈ company_names /\
  exists sym o,
    Dict.get tickers (selected_company ui) = Some sym /\
    ohlc_data Sample6.hist6 sym = Ok o /\
    labels (columns o) = [Str "Date"; Str "Open"; Str "High"; Str "Low"; Str "Close"] /\
    data o = candles Sample6.hist6 sym /\
    fst (main ui w) = Ok tt /\
    page (snd (main ui w))
    = page w ++ [st_write_days (days ui); st_write_candle (selected_company ui) sym;
                 candle_chart o].
Proof.
  intros ui w.
  assert (1 <= days ui <= 100) as H1 by (simpl; lia).
  assert (clock_ok w) as H2 by (vm_compute; split; discriminate).
  assert (cache w !! (days ui, tickers) = None) as H3 by reflexivity.
  assert (provider w (window_request (days ui) tickers (clock w)) = Ok Sample6.hist6) as H4
    by reflexivity.
  pose proof sample_hist6_ohlc_table as H5.
  assert (labels (index Sample6.hist6) <> []) as H6 by discriminate.
  assert (chart ui = Candlestick) as H7 by reflexivity.
  assert (selected_company ui ∈ company_names) as H8
    by (apply (bool_decide_unpack _); vm_compute; exact I).
  repeat (split; [assumption|]).
  exact (main_draws_candlestick ui w Sample6.hist6 H1 H2 H3 H4 H5 H6 H7 H8).
Defined.

(** The same run when the provider names the date index "Datetime": the two
    headings, then the report of the error. *)
Example main_candlestick_datetime_index :
  let hist := mk_df (mk_axis DatetimeIndex (labels (index Sample6.hist6)) [Some "Datetime"])
                    (columns Sample6.hist6) (data Sample6.hist6) in
  let w := boot Sample.now0 (Sample.answers hist) in
  fst (main Sample6.candle_run w) = Ok tt /\
  page (snd (main Sample6.candle_run w))
  = [st_write_days 30; st_write_candle "netflix" "NFLX";
     st_error (Unexpected ValueError); st_error Traceback].
Proof. vm_compute. split; reflexivity. Qed.

(** The candlestick table of NFLX in this answer. *)
Example sample6_candles :
  candles Sample6.hist6 "NFLX"
  = [[Sample.midnight 739921; Num 10022; Num 10010; Num 10016; Num 10004];
     [Sample.midnight 739922; Num 20022; Num 20010; Num 20016; Num 20004]].
Proof. reflexivity. Qed.

(** ** Missing rows and columns *)

Lemma loc_positions_missing ls sel n :
  n ∈ sel -> Str n ∉ ls -> loc_positions ls sel = Raise KeyError.
Proof.
  intros Hn Hmiss. induction sel as [|k sel IH]; [by apply elem_of_nil in Hn|].
  simpl. destruct (positions (fun l => eqb_value l (Str k)) ls) as [|j js] eqn:Hp; [done|].
  apply elem_of_cons in Hn as [->|Hn].
  - exfalso. pose proof (positions_bound (fun l => eqb_value l (Str k)) ls) as Hb.
    rewrite Hp in Hb. apply Forall_cons in Hb as [[Hlt Heq] _].
    apply bool_decide_eq_true in Heq. apply Hmiss. rewrite <- Heq.
    apply list_elem_of_In. by apply nth_In.
  - by rewrite IH.
Qed.

(** X9.  When a selected company labels no row of the Close matrix, the
    line-chart branch raises [KeyError] on line 112 before it has written
    anything: neither the table of the other selected companies nor a chart
    is shown. *)
Theorem multi_line_missing_row m sel n w :
  n ∈ sel ->
  Str n ∉ labels (index m) ->
  multi_line m sel w = (Raise KeyError, w).
Proof.
  intros Hn Hmiss. unfold multi_line.
  destruct sel as [|k sel]; [by apply elem_of_nil in Hn|].
  unfold bind, lift, loc_rows. by rewrite (loc_positions_missing _ _ n).
Qed.

Lemma multi_line_missing_row_witness :
  let w := boot Sample.now0 (Sample.answers Sample.hist2) in
  "google" ∈ ["meta"; "apple"; "google"] /\
  (Str "google" ∉ labels (index Sample.close2)) /\
  multi_line Sample.close2 ["meta"; "apple"; "google"] w = (Raise KeyError, w).
Proof.
  intros w.
  assert ("google" ∈ ["meta"; "apple"; "google"]) as H1
    by (apply (bool_decide_unpack _); vm_compute; exact I).
  assert (Str "google" ∉ labels (index Sample.close2)) as H2
    by (apply (bool_decide_unpack _); vm_compute; exact I).
  split; [exact H1|]. split; [exact H2|].
  exact (multi_line_missing_row Sample.close2 ["meta"; "apple"; "google"] "google" w H1 H2).
Defined.

(** X10.  When the table with grouped columns has no column of the symbol of
    the selected company, the candlestick branch writes the heading of the
    company and then raises [KeyError] on line 152: no chart is drawn, and
    the error for an empty table is not the one shown. *)
Theorem candlestick_missing_symbol hist company sym w :
  Dict.get tickers company = Some sym ->
  kind (columns hist) = MultiIndex ->
  Forall (fun l => level1 l <> Str sym) (labels (columns hist)) ->
  candlestick hist company w
  = (Raise KeyError, written [st_write_candle company sym] w).
Proof.
  intros Hget Hk Hnone.
  unfold candlestick, bind, lift, dict_getitem, emit. rewrite Hget. simpl.
  unfold ohlc_data, loc_level1. rewrite Hk.
  assert (positions (fun l => eqb_value (level1 l) (Str sym)) (labels (columns hist)) = [])
    as ->; [|done].
  apply positions_nil. eapply Forall_impl; [exact Hnone|]. simpl.
  intros l Hl. by apply bool_decide_eq_false_2.
Qed.

Lemma candlestick_missing_symbol_witness :
  let w := boot Sample.now0 (Sample.answers Sample.hist2) in
  Dict.get tickers "netflix" = Some "NFLX" /\
  kind (columns Sample.hist2) = MultiIndex /\
  Forall (fun l => level1 l <> Str "NFLX") (labels (columns Sample.hist2)) /\
  candlestick Sample.hist2 "netflix" w
  = (Raise KeyError, written [st_write_candle "netflix" "NFLX"] w).
Proof.
  intros w.
  assert (Forall (fun l => level1 l <> Str "NFLX") (labels (columns Sample.hist2))) as H3
    by (repeat constructor; discriminate).
  split; [reflexivity|]. split; [reflexivity|]. split; [exact H3|].
  exact (candlestick_missing_symbol Sample.hist2 "netflix" "NFLX" w eq_refl eq_refl H3).
Defined.

(** What the main block makes of it: the heading, the heading of the
    company, the report of the unexpected error. *)
Example main_missing_symbol :
  page (snd (main Sample6.candle_run (boot Sample.now0 (Sample.answers Sample.hist2))))
  = [st_write_days 30; st_write_candle "netflix" "NFLX";
     st_error (Unexpected KeyError); st_error Traceback].
Proof. reflexivity. Qed.

(** ** The dict of line 56 *)

Lemma dict_get_set d k v k' :
  Dict.get (Dict.set d k v) k' = if decide (k = k') then Some v else Dict.get d k'.
Proof.
  induction d as [|[k0 v0] d IH]; simpl.
  - by destruct (decide (k = k')).
  - destruct (decide (k0 = k)) as [->|Hk0]; simpl.
    + by destruct (decide (k = k')).
    + rewrite IH. destruct (decide (k0 = k')) as [->|]; [|done].
      by rewrite decide_False.
Qed.

Lemma dict_get_app d1 d2 k :
  Dict.get (d1 ++ d2) k
  = match Dict.get d1 k with Some v => Some v | None => Dict.get d2 k end.
Proof.
  induction d1 as [|[k0 v0] d1 IH]; simpl; [done|]. by destruct (decide (k0 = k)).
Qed.

Lemma dict_keys_set d k v :
  Dict.keys (Dict.set d k v)
  = if bool_decide (k ∈ Dict.keys d) then Dict.keys d else Dict.keys d ++ [k].
Proof.
  induction d as [|[k0 v0] d IH]; simpl; [done|].
  destruct (decide (k0 = k)) as [->|Hk0]; simpl.
  - rewrite bool_decide_eq_true_2; [done|left].
  - rewrite IH. destruct (bool_decide (k ∈ Dict.keys d)) eqn:Hin.
    + apply bool_decide_eq_true in Hin. rewrite bool_decide_eq_true_2; [done|by right].
    + apply bool_decide_eq_false in Hin. rewrite bool_decide_eq_false_2; [done|].
      intros Hin'. apply elem_of_cons in Hin' as [->|Hin']; done.
Qed.

Lemma dict_set_NoDup d k v : NoDup (Dict.keys d) -> NoDup (Dict.keys (Dict.set d k v)).
Proof.
  intros Hnd. rewrite dict_keys_set.
  destruct (bool_decide (k ∈ Dict.keys d)) eqn:Hin; [done|].
  apply bool_decide_eq_false in Hin. apply NoDup_app. split; [done|].
  split; [|apply NoDup_singleton]. intros x Hx Hx'. apply list_elem_of_singleton in Hx' as ->.
  done.
Qed.

Lemma dict_invert_fold_get d s : forall acc,
  Dict.get (fold_left (fun a kv => Dict.set a (snd kv) (fst kv)) d acc) s
  = match Dict.get (rev (List.map Dict.swap d)) s with
    | Some n => Some n
    | None => Dict.get acc s
    end.
Proof.
  induction d as [|[k v] d IH]; intros acc; simpl; [done|].
  rewrite IH, dict_get_app, dict_get_set. simpl.
  destruct (Dict.get (rev (List.map Dict.swap d)) s); [done|].
  by destruct (decide (v = s)).
Qed.

Lemma dict_invert_fold_NoDup d : forall acc,
  NoDup (Dict.keys acc) ->
  NoDup (Dict.keys (fold_left (fun a kv => Dict.set a (snd kv) (fst kv)) d acc)).
Proof.
  induction d as [|[k v] d IH]; intros acc Hnd; simpl; [done|].
  apply IH. by apply dict_set_NoDup.
Qed.

(** X11.  Inverting a mapping twice gives the mapping back, when its display
    names are pairwise distinct and its symbols are pairwise distinct: the
    dict comprehension of line 56 loses nothing and keeps the order. *)
Theorem dict_invert_invert d :
  NoDup (Dict.keys d) ->
  NoDup (Dict.values d) ->
  Dict.invert (Dict.invert d) = d.
Proof.
  intros Hkeys Hvals. rewrite (dict_invert_swap d Hvals).
  rewrite dict_invert_swap.
  - rewrite List.map_map. rewrite <- (List.map_id d) at 2.
    apply map_ext. by intros [k v].
  - unfold Dict.values. rewrite List.map_map. simpl. exact Hkeys.
Qed.

Lemma dict_invert_invert_witness :
  NoDup (Dict.keys tickers) /\ NoDup (Dict.values tickers) /\
  Dict.invert (Dict.invert tickers) = tickers.
Proof.
  assert (NoDup (Dict.keys tickers)) as H1
    by (apply (bool_decide_unpack _); vm_compute; exact I).
  assert (NoDup (Dict.values tickers)) as H2
    by (apply (bool_decide_unpack _); vm_compute; exact I).
  split; [exact H1|]. split; [exact H2|].
  exact (dict_invert_invert tickers H1 H2).
Defined.

(** X12.  Whatever the mapping, the dict of line 56 has each symbol as a key
    once, and under a symbol it holds the display name of the last
    instrument of the mapping with this symbol: of two instruments that share
    a symbol the later one gives the Close matrix its row label. *)
Theorem dict_invert_last_name d :
  NoDup (Dict.keys (Dict.invert d)) /\
  forall s, Dict.get (Dict.invert d) s = Dict.get (rev (List.map Dict.swap d)) s.
Proof.
  split.
  - apply dict_invert_fold_NoDup. constructor.
  - intros s. unfold Dict.invert, Dict.items. rewrite dict_invert_fold_get.
    by destruct (Dict.get (rev (List.map Dict.swap d)) s).
Qed.

(** Two share classes of one company under one symbol. *)
Example dict_invert_shared_symbol :
  Dict.invert [("google", "GOOG"); ("meta", "META"); ("alphabet", "GOOG")]
  = [("GOOG", "alphabet"); ("META", "meta")].
Proof. reflexivity. Qed.

(** ** The ways out of [get_data] *)

(** X13.  A call of [get_data] that is not answered from the cache ends in
    one of three ways, whatever the provider does: it returns two tables and
    has written nothing; or it returns [None] and has written the error for
    the empty result; or it returns the pair of two [None] and has written
    the error with the exception it caught, followed by the traceback.  It
    never returns one table without the other, and never a table together
    with an error. *)
Theorem get_data_three_outcomes days tks w :
  cache w !! (days, tks) = None ->
  (exists h m, fst (get_data days tks w) = Ok (RTuple (Some h) (Some m)) /\
               page (snd (get_data days tks w)) = page w)
  \/
  (fst (get_data days tks w) = Ok RNone /\
   page (snd (get_data days tks w)) = page w ++ [st_error EmptyFetch])
  \/
  (exists e, fst (get_data days tks w) = Ok (RTuple None None) /\
             page (snd (get_data days tks w))
             = page w ++ [st_error (FetchException e); st_error Traceback]).
Proof.
  intros Hc. destruct (get_data_miss_cases days tks w Hc) as [Hg|Hg]; rewrite Hg; simpl.
  - right. right. by exists OverflowError.
  - unfold outcome.
    destruct (provider w (window_request days tks (clock w))) as [resp|e]; simpl.
    + destruct (empty resp); simpl; [right; by left|].
      destruct (shaped tks resp) as [[h m]|e]; simpl.
      * left. exists h, m. by rewrite app_nil_r.
      * right. right. by exists e.
    + right. right. by exists e.
Qed.

Lemma get_data_three_outcomes_witness :
  let w := boot Sample.now0 (Sample.answers Sample.no_rows) in
  cache w !! (30, tickers) = None /\
  ((exists h m, fst (get_data 30 tickers w) = Ok (RTuple (Some h) (Some m)) /\
                page (snd (get_data 30 tickers w)) = page w)
   \/
   (fst (get_data 30 tickers w) = Ok RNone /\
    page (snd (get_data 30 tickers w)) = page w ++ [st_error EmptyFetch])
   \/
   (exists e, fst (get_data 30 tickers w) = Ok (RTuple None None) /\
              page (snd (get_data 30 tickers w))
              = page w ++ [st_error (FetchException e); st_error Traceback])).
Proof.
  intros w.
  assert (cache w !! (30, tickers) = None) as H1 by reflexivity.
  split; [exact H1|].
  exact (get_data_three_outcomes 30 tickers w H1).
Defined.

Lemma representable_negative_day_count n now :
  n <= 0 -> valid now = true -> valid (days_before n now) = true ->
  Z.abs n <= 999999999.
Proof.
  unfold valid, days_before, MAX_DATETIME, US_PER_DAY. intros Hn Hnow Hs.
  apply andb_true_iff in Hnow as [H1 _]. apply andb_true_iff in Hs as [_ H2].
  apply Z.leb_le in H1, H2. lia.
Qed.

Lemma days_before_negative n now : n < 0 -> now < days_before n now.
Proof. unfold days_before, US_PER_DAY. lia. Qed.

(** X14.  [get_data] does not check the day count: for a day count of 0 or
    less, as long as the instants are representable, a call that is not
    answered from the cache sends its request all the same, for a window
    that ends now and starts after it ends. *)
Theorem get_data_unchecked_day_count days tks w :
  days <= 0 ->
  valid (clock w) = true ->
  valid (days_before (days - 1) (clock w)) = true ->
  cache w !! (days, tks) = None ->
  exists r, requests (snd (get_data days tks w)) = requests w ++ [r] /\
            req_end r = clock w /\
            req_end r < req_start r.
Proof.
  intros Hd Hnow Hs Hc.
  assert (Z.abs (days - 1) <= 999999999) as Ha
    by (apply (representable_negative_day_count _ (clock w)); [lia|assumption..]).
  rewrite (get_data_miss days tks w Hc Ha Hs).
  exists (window_request days tks (clock w)).
  split; [reflexivity|]. split; [reflexivity|].
  apply days_before_negative. lia.
Qed.

Lemma get_data_unchecked_day_count_witness :
  let w := boot Sample.now0 (Sample.answers Sample.no_rows) in
  0 <= 0 /\ valid (clock w) = true /\ valid (days_before (0 - 1) (clock w)) = true /\
  cache w !! (0, tickers) = None /\
  exists r, requests (snd (get_data 0 tickers w)) = requests w ++ [r] /\
            req_end r = clock w /\
            req_end r < req_start r.
Proof.
  intros w.
  assert (0 <= 0) as H1 by lia.
  assert (cache w !! (0, tickers) = None) as H4 by reflexivity.
  split; [exact H1|]. split; [reflexivity|]. split; [reflexivity|]. split; [exact H4|].
  exact (get_data_unchecked_day_count 0 tickers w H1 eq_refl eq_refl H4).
Defined.

(** ** The error of line 157 *)








